(** * Pharmascribe: series derivation in [scripts/generate_sample_plots.py]

    The script reads the theophylline concentration-time table with pandas,
    selects the rows of every subject, groups the table by time to get the
    mean and the standard deviation of the concentration, and hands the
    resulting columns to matplotlib.

    The embedding below follows the script statement by statement.

    - A [DataFrame] is what pandas holds: a dictionary from column labels to
      columns of equal length.  [df[label]] is a dictionary lookup that raises
      [KeyError] on an absent label.
    - Cells are numbers: the tables considered are those whose cells
      [read_csv] parses as finite numbers (no blank cell, which pandas
      reads as NaN, and no text).  They are kept as exact rationals ([Q])
      and compared by value ([Qeq_bool], [Qcompare]).  Selecting,
      grouping and ordering rows involve no arithmetic and are exact.
    - pandas computes ['mean'] and ['std'] in float64.  Here they are the
      values of exact arithmetic, a standard deviation being kept as the
      square root of an exact variance; float64 rounding is not modelled.
      The theorems below use of these values only what rounding cannot
      change: that ['std'] of a single value is NaN, which rows have a
      mean above 0 according to [mean_data] itself, and that the mean of
      zeros is 0.
    - The module [Script] runs the statements of the file in order over
      Python's global variables, an object store and the list of matplotlib
      calls made so far. *)

From Stdlib Require Import QArith Qreals Reals Lra Lia Sorted Permutation.
From Stdlib Require Lqa.
From stdpp Require Import gmap strings list.

Local Open Scope Q_scope.

(** ** Exceptions and results *)

Inductive exn :=
  | KeyError (label : string)
  | NameError (name : string)
  | TypeError.

Inductive result (A : Type) :=
  | Ok (a : A)
  | Raise (e : exn).
Arguments Ok {A} a.
Arguments Raise {A} e.

#[global] Instance result_ret : MRet result := @Ok.

#[global] Instance result_bind : MBind result := λ A B k r,
  match r with
  | Ok a => k a
  | Raise e => Raise e
  end.

(** ** The fragment of pandas the script uses *)

Abbreviation Series := (list Q).
Abbreviation DataFrame := (gmap string Series).

(** [df[label]] *)
Definition getitem (df : DataFrame) (label : string) : result Series :=
  match df !! label with
  | Some s => Ok s
  | None => Raise (KeyError label)
  end.

(** [series.unique()]: the distinct values, in order of first appearance. *)
Fixpoint unique_from (seen : list Q) (s : Series) : list Q :=
  match s with
  | [] => []
  | x :: s' =>
      if existsb (Qeq_bool x) seen then unique_from seen s'
      else x :: unique_from (x :: seen) s'
  end.

Definition unique (s : Series) : list Q := unique_from [] s.

(** [series == v] and [series > v]: element-wise comparisons giving a mask.
    The cells are numbers; on a column of text pandas' [>] raises. *)
Definition eq_mask (s : Series) (v : Q) : list bool :=
  map (fun x => Qeq_bool x v) s.

Definition Qgt_bool (x v : Q) : bool := negb (Qle_bool x v).

Definition gt_mask (s : Series) (v : Q) : list bool :=
  map (fun x => Qgt_bool x v) s.

(** Boolean indexing of one column: the entries whose mask bit is set, in
    their original order.  In the script a mask is always computed from a
    column of the frame it indexes, so both have the same length; pandas
    raises on a mask of another length, and every statement below about
    a mask that is not built this way assumes the lengths equal. *)
Fixpoint select {A} (mask : list bool) (s : list A) : list A :=
  match mask, s with
  | b :: mask', x :: s' => if b then x :: select mask' s' else select mask' s'
  | _, _ => []
  end.

(** [df[mask]]: every column is indexed by the mask; the result is a new
    frame with the same labels. *)
Definition bool_index (df : DataFrame) (mask : list bool) : DataFrame :=
  select mask <$> df.

(** Group keys of [groupby] (default [sort=True]): the distinct values of
    the key column in ascending order.  The cells are numbers: there is no
    NaN key, whose rows [groupby] would leave out. *)
Fixpoint insert_key (k : Q) (ks : list Q) : list Q :=
  match ks with
  | [] => [k]
  | k' :: ks' =>
      match k ?= k' with
      | Lt => k :: ks
      | Eq => k :: ks'
      | Gt => k' :: insert_key k ks'
      end
  end.

Definition group_keys (s : Series) : list Q := fold_right insert_key [] s.

(** A standard deviation as pandas reports it: NaN, or the square root of
    the (exact) variance. *)
Inductive stdval :=
  | NaN
  | Sqrt (variance : Q).

Definition Qsum (s : Series) : Q := fold_right Qplus 0 s.

Definition Qlen (s : Series) : Q := inject_Z (Z.of_nat (length s)).

(** ['mean']: sum over count, in exact arithmetic (pandas rounds to
    float64); NaN ([None]) for no values. *)
Definition mean (s : Series) : option Q :=
  match s with
  | [] => None
  | _ => Some (Qred (Qsum s / Qlen s))
  end.

(** Sum of squared deviations from the mean. *)
Definition sq_dev (s : Series) : Q :=
  Qsum (map (fun x => (x - Qsum s / Qlen s) * (x - Qsum s / Qlen s)) s).

(** ['std']: pandas' default [ddof=1]; NaN when fewer than two values,
    else the root of the variance of exact arithmetic (pandas rounds to
    float64). *)
Definition std (s : Series) : stdval :=
  if (length s <=? 1)%nat then NaN
  else Sqrt (Qred (sq_dev s / (Qlen s - 1))).

(** One row of [groupby(...)[...].agg(['mean', 'std']).reset_index()]. *)
Record AggRow := {
  Time_h : Q;
  agg_mean : option Q;
  agg_std : stdval
}.

Definition groupby_agg (keys vals : Series) : list AggRow :=
  map (fun k =>
         let group := select (eq_mask keys k) vals in
         {| Time_h := k; agg_mean := mean group; agg_std := std group |})
      (group_keys keys).

(** ** The derivations of the script, as functions of [df] *)

(** line 41: [subjects = df['Subject_ID'].unique()] *)
Definition subjects (df : DataFrame) : result (list Q) :=
  ids ← getitem df "Subject_ID";
  Ok (unique ids).

(** line 44: [subject_data = df[df['Subject_ID'] == subject]] *)
Definition subject_data (df : DataFrame) (subject : Q) : result DataFrame :=
  ids ← getitem df "Subject_ID";
  Ok (bool_index df (eq_mask ids subject)).

(** line 86: [data_nonzero = subject_data[subject_data['Concentration_mg_L'] > 0]] *)
Definition data_nonzero (subject_data : DataFrame) : result DataFrame :=
  conc ← getitem subject_data "Concentration_mg_L";
  Ok (bool_index subject_data (gt_mask conc 0)).

(** line 102: [mean_data = df.groupby('Time_h')['Concentration_mg_L']
    .agg(['mean', 'std']).reset_index()] *)
Definition mean_data (df : DataFrame) : result (list AggRow) :=
  keys ← getitem df "Time_h";
  vals ← getitem df "Concentration_mg_L";
  Ok (groupby_agg keys vals).

(** line 125: [mean_nonzero = mean_data[mean_data['mean'] > 0]] *)
Definition mean_positive (r : AggRow) : bool :=
  match agg_mean r with
  | Some m => Qgt_bool m 0
  | None => false
  end.

Definition mean_nonzero (mean_data : list AggRow) : list AggRow :=
  List.filter mean_positive mean_data.

(** The columns the script requires of the table. *)
Definition required_columns : list string :=
  ["Subject_ID"; "Time_h"; "Concentration_mg_L"].

(** The two columns a frame hands to [ax.plot] / [ax.semilogy]
    (lines 45, 66, 87, 149), paired point by point. *)
Definition xy (f : DataFrame) : result (Series * Series) :=
  x ← getitem f "Time_h";
  y ← getitem f "Concentration_mg_L";
  Ok (x, y).

Definition points (f : DataFrame) : result (list (Q * Q)) :=
  c ← xy f;
  Ok (combine c.1 c.2).

(** The series of one subject as drawn on the linear charts. *)
Definition subject_series (df : DataFrame) (subject : Q) : result (list (Q * Q)) :=
  sd ← subject_data df subject;
  points sd.

(** The series of one subject as drawn on the semi-logarithmic chart. *)
Definition semilog_series (df : DataFrame) (subject : Q) : result (list (Q * Q)) :=
  sd ← subject_data df subject;
  nz ← data_nonzero sd;
  points nz.

(** ** The script as a sequence of statements

    Python binds names to objects: [globals] maps a variable to the location
    of its object, [heap] holds the objects.  Every pandas operation of the
    script returns a new object; none writes into an existing one.  [calls]
    is the sequence of matplotlib calls that receive data (axis labels,
    limits, legends and styles are left out: they carry no data). *)

Module Script.

Definition loc := nat.

Inductive obj :=
  | Frame (f : DataFrame)      (* a pandas DataFrame read or indexed from one *)
  | Array (a : list Q)         (* the numpy array returned by [unique()] *)
  | Stats (m : list AggRow).   (* the frame returned by [agg(...).reset_index()] *)

Inductive call :=
  | plot (x y : Series)
  | semilogy (x y : Series)
  | errorbar (x : Series) (y : list (option Q)) (yerr : list stdval)
  | savefig (file : string).

Record state := {
  globals : gmap string loc;
  heap : list obj;
  calls : list call
}.

(** A statement runs in a state and ends in a state, normally or with an
    exception; the state reached when the exception is raised is kept. *)
Definition M (A : Type) : Type := state → state * result A.

#[global] Instance M_ret : MRet M := λ A a s, (s, Ok a).

#[global] Instance M_bind : MBind M := λ A B k m s,
  match m s with
  | (s', Ok a) => k a s'
  | (s', Raise e) => (s', Raise e)
  end.

Definition raise {A} (e : exn) : M A := λ s, (s, Raise e).

Definition lift {A} (r : result A) : M A := λ s, (s, r).

(** Allocation of the object an expression evaluates to. *)
Definition new (o : obj) : M loc := λ s,
  ({| globals := globals s; heap := heap s ++ [o]; calls := calls s |},
   Ok (length (heap s))).

(** [x = ...] *)
Definition assign (x : string) (l : loc) : M unit := λ s,
  ({| globals := <[x := l]> (globals s); heap := heap s; calls := calls s |},
   Ok tt).

(** Evaluation of the name [x]. *)
Definition name (x : string) : M obj := λ s,
  match globals s !! x with
  | Some l =>
      match heap s !! l with
      | Some o => (s, Ok o)
      | None => (s, Raise (NameError x))
      end
  | None => (s, Raise (NameError x))
  end.

Definition frame_of (x : string) : M DataFrame :=
  o ← name x;
  match o with
  | Frame f => mret f
  | _ => raise TypeError
  end.

Definition array_of (x : string) : M (list Q) :=
  o ← name x;
  match o with
  | Array a => mret a
  | _ => raise TypeError
  end.

Definition stats_of (x : string) : M (list AggRow) :=
  o ← name x;
  match o with
  | Stats m => mret m
  | _ => raise TypeError
  end.

Definition emit (c : call) : M unit := λ s,
  ({| globals := globals s; heap := heap s; calls := calls s ++ [c] |}, Ok tt).

Fixpoint for_each {A} (l : list A) (body : A → M unit) : M unit :=
  match l with
  | [] => mret tt
  | a :: l' => body a;; for_each l' body
  end.

(** [x = e], where evaluating [e] creates the object [o]: the object is
    allocated at a fresh location and the name is bound to it.  Every
    assignment of the script has this form. *)
Definition store (x : string) (o : obj) : M unit :=
  l ← new o;
  assign x l.

(** line 21: [df = pd.read_csv(csv_path)].  No column is looked up here. *)
Definition read_csv (table : DataFrame) : state :=
  {| globals := {["df" := 0%nat]}; heap := [Frame table]; calls := [] |}.

(** line 37: [colors = plt.cm.tab10(np.linspace(0, 1,
    len(df['Subject_ID'].unique())))]; only the lookup matters here. *)
Definition colors : M unit :=
  df ← frame_of "df";
  _ ← lift (subjects df);
  mret tt.

(** line 41: [subjects = df['Subject_ID'].unique()] *)
Definition bind_subjects : M unit :=
  df ← frame_of "df";
  u ← lift (subjects df);
  store "subjects" (Array u).

(** line 44 (also 65, 84, 148): [subject_data = df[df['Subject_ID'] == subject]] *)
Definition bind_subject_data (subject : Q) : M unit :=
  df ← frame_of "df";
  sd ← lift (subject_data df subject);
  store "subject_data" (Frame sd).

(** lines 45-47 (also 66-67, 149-150): [ax.plot(subject_data['Time_h'],
    subject_data['Concentration_mg_L'], ...)] *)
Definition plot_subject_data : M unit :=
  sd ← frame_of "subject_data";
  c ← lift (xy sd);
  emit (plot c.1 c.2).

(** lines 43-47 (also 64-67 and 147-150): [for subject in subjects: ...] *)
Definition plot_subjects : M unit :=
  subs ← array_of "subjects";
  for_each subs (λ subject,
    bind_subject_data subject;;
    plot_subject_data).

(** line 86: [data_nonzero = subject_data[subject_data['Concentration_mg_L'] > 0]] *)
Definition bind_data_nonzero : M unit :=
  sd ← frame_of "subject_data";
  nz ← lift (data_nonzero sd);
  store "data_nonzero" (Frame nz).

(** lines 87-88: [ax.semilogy(data_nonzero['Time_h'],
    data_nonzero['Concentration_mg_L'], ...)] *)
Definition semilogy_data_nonzero : M unit :=
  nz ← frame_of "data_nonzero";
  c ← lift (xy nz);
  emit (semilogy c.1 c.2).

(** lines 83-88: the semi-logarithmic chart. *)
Definition semilogy_subjects : M unit :=
  subs ← array_of "subjects";
  for_each subs (λ subject,
    bind_subject_data subject;;
    bind_data_nonzero;;
    semilogy_data_nonzero).

(** line 102: [mean_data = df.groupby('Time_h')['Concentration_mg_L']
    .agg(['mean', 'std']).reset_index()] *)
Definition bind_mean_data : M unit :=
  df ← frame_of "df";
  md ← lift (mean_data df);
  store "mean_data" (Stats md).

(** lines 105, 126 and 153: [ax.errorbar(m['Time_h'], m['mean'],
    yerr=m['std'], ...)] for [m] one of [mean_data], [mean_nonzero]. *)
Definition errorbar_of (x : string) : M unit :=
  md ← stats_of x;
  emit (errorbar (map Time_h md) (map agg_mean md) (map agg_std md)).

(** line 125: [mean_nonzero = mean_data[mean_data['mean'] > 0]] *)
Definition bind_mean_nonzero : M unit :=
  md ← stats_of "mean_data";
  store "mean_nonzero" (Stats (mean_nonzero md)).

(** The whole file, from line 37 on. *)
Definition main : M unit :=
  colors;;
  bind_subjects;;
  plot_subjects;;
  emit (savefig "individual_concentration_time.png");;
  plot_subjects;;
  emit (savefig "spaghetti_linear.png");;
  semilogy_subjects;;
  emit (savefig "spaghetti_semilog.png");;
  bind_mean_data;;
  errorbar_of "mean_data";;
  emit (savefig "mean_concentration_time.png");;
  bind_mean_nonzero;;
  errorbar_of "mean_nonzero";;
  emit (savefig "mean_concentration_time_semilog.png");;
  plot_subjects;;
  errorbar_of "mean_data";;
  emit (savefig "combined_concentration_time.png").

Definition run (table : DataFrame) : state * result unit :=
  main (read_csv table).

(** The name [x] is bound to the object [o]. *)
Definition binds (s : state) (x : string) (o : obj) : Prop :=
  ∃ l, globals s !! x = Some l ∧ heap s !! l = Some o.

(** The source table is where [read_csv] put it, unchanged, and no other
    name refers to its object. *)
Definition untouched (table : DataFrame) (s : state) : Prop :=
  globals s !! "df" = Some 0%nat ∧
  heap s !! 0%nat = Some (Frame table) ∧
  ∀ x l, x ≠ "df" → globals s !! x = Some l → l ≠ 0%nat.

(** A statement that leaves the source table untouched, whether it ends
    normally or raises. *)
Definition keeps_table (table : DataFrame) {A} (m : M A) : Prop :=
  ∀ s, untouched table s → untouched table (m s).1.

(** Bindings kept by a loop of the script: all but those of the two names
    the loop bodies assign. *)
Definition preserved (s s' : state) : Prop :=
  ∀ x o, x ≠ "subject_data" → x ≠ "data_nonzero" →
    binds s x o → binds s' x o.

(** What the script draws for a table with columns [ids], [ts], [cs]:
    the call of line 45 for one subject, that of line 87, and the error
    bars of a frame of statistics. *)
Definition plot_call (ids ts cs : Series) (u : Q) : call :=
  plot (select (eq_mask ids u) ts) (select (eq_mask ids u) cs).

Definition semilogy_call (ids ts cs : Series) (u : Q) : call :=
  let nz := gt_mask (select (eq_mask ids u) cs) 0 in
  semilogy (select nz (select (eq_mask ids u) ts))
           (select nz (select (eq_mask ids u) cs)).

Definition errorbar_call (m : list AggRow) : call :=
  errorbar (map Time_h m) (map agg_mean m) (map agg_std m).

(** All calls of a run on a table with columns [ids], [ts], [cs]. *)
Definition expected_calls (ids ts cs : Series) : list call :=
  let subs := unique ids in
  let m := groupby_agg ts cs in
  map (plot_call ids ts cs) subs ++
  [savefig "individual_concentration_time.png"] ++
  map (plot_call ids ts cs) subs ++
  [savefig "spaghetti_linear.png"] ++
  map (semilogy_call ids ts cs) subs ++
  [savefig "spaghetti_semilog.png";
   errorbar_call m;
   savefig "mean_concentration_time.png";
   errorbar_call (mean_nonzero m);
   savefig "mean_concentration_time_semilog.png"] ++
  map (plot_call ids ts cs) subs ++
  [errorbar_call m;
   savefig "combined_concentration_time.png"].


End Script.

(** ** Vocabulary of the specification *)

(** A table as [read_csv] returns it when the file has the three columns:
    the columns are present and have one entry per row. *)
Record loaded (df : DataFrame) (ids ts cs : Series) : Prop := {
  loaded_ids : df !! "Subject_ID" = Some ids;
  loaded_ts : df !! "Time_h" = Some ts;
  loaded_cs : df !! "Concentration_mg_L" = Some cs;
  loaded_ts_len : length ts = length ids;
  loaded_cs_len : length cs = length ids
}.

(** An observation is one row: subject, time, concentration. *)
Abbreviation Observation := (Q * (Q * Q))%type.

Definition subject_id (o : Observation) : Q := o.1.
Definition time_h (o : Observation) : Q := o.2.1.
Definition concentration_mg_l (o : Observation) : Q := o.2.2.

Definition observations (ids ts cs : Series) : list Observation :=
  combine ids (combine ts cs).

(** The rows of a frame that has the three columns. *)
Definition records (f : DataFrame) : result (list Observation) :=
  ids ← getitem f "Subject_ID";
  c ← xy f;
  Ok (combine ids (combine c.1 c.2)).

(** The rows of the frame bound to [subject_data] for one subject. *)
Definition subject_records (df : DataFrame) (subject : Q) : result (list Observation) :=
  sd ← subject_data df subject;
  records sd.

(** Points listed strictly ascending by time. *)
Definition ascending (pts : list (Q * Q)) : Prop :=
  StronglySorted Qlt (map fst pts).

Definition Qlt_bool (x y : Q) : bool := negb (Qle_bool y x).

(** The table lists the rows of every subject by strictly increasing time:
    a later row of the same subject has a later time. *)
Definition follows (o1 o2 : Observation) : bool :=
  implb (Qeq_bool (subject_id o1) (subject_id o2))
        (Qlt_bool (time_h o1) (time_h o2)).

Fixpoint time_ordered (rows : list Observation) : bool :=
  match rows with
  | [] => true
  | o :: rows' => forallb (follows o) rows' && time_ordered rows'
  end.

(** The invariant of the specification's data model: no two rows share
    subject and time, and times and concentrations are not negative. *)
Definition same_measurement (o1 o2 : Observation) : bool :=
  Qeq_bool (subject_id o1) (subject_id o2) && Qeq_bool (time_h o1) (time_h o2).

Fixpoint no_duplicates (rows : list Observation) : bool :=
  match rows with
  | [] => true
  | o :: rows' => negb (existsb (same_measurement o) rows') && no_duplicates rows'
  end.

Definition valid_dataset (rows : list Observation) : bool :=
  no_duplicates rows &&
  forallb (λ o, Qle_bool 0 (time_h o) && Qle_bool 0 (concentration_mg_l o)) rows.

(** The rows of subject [u], in table order. *)
Definition rows_of (u : Q) (rows : list Observation) : list Observation :=
  List.filter (λ o, Qeq_bool (subject_id o) u) rows.

(** The concentrations recorded at exactly time [t], in table order. *)
Definition at_time (ts cs : Series) (t : Q) : Series :=
  map snd (List.filter (λ p, Qeq_bool p.1 t) (combine ts cs)).

(** The real number a reported standard deviation stands for. *)
Definition real_of_std (v : stdval) : option R :=
  match v with
  | NaN => None
  | Sqrt q => Some (sqrt (Q2R q))
  end.

(** Values that differ pairwise (as numbers). *)
Definition distinct (l : list Q) : Prop :=
  StronglySorted (λ a b, ¬ a == b) l.

(** ** Vocabulary for the whole run *)

(** The image files written by a sequence of calls, in order. *)
Fixpoint saved_files (cs : list Script.call) : list string :=
  match cs with
  | [] => []
  | Script.savefig file :: cs' => file :: saved_files cs'
  | _ :: cs' => saved_files cs'
  end.

(** matplotlib accepts a call only if its data columns have one length. *)
Definition well_shaped (c : Script.call) : Prop :=
  match c with
  | Script.plot x y | Script.semilogy x y => length x = length y
  | Script.errorbar x y yerr => length x = length y ∧ length x = length yerr
  | Script.savefig _ => True
  end.

(** The same call with the statistics of an error bar left out. *)
Definition without_stats (c : Script.call) : Script.call :=
  match c with
  | Script.errorbar _ _ _ => Script.errorbar [] [] []
  | _ => c
  end.

(** The position of the first entry of [l] equal to [x]. *)
Fixpoint first_index (x : Q) (l : list Q) : option nat :=
  match l with
  | [] => None
  | y :: l' => if Qeq_bool y x then Some 0%nat else S <$> first_index x l'
  end.

(** All columns of a frame have [n] entries. *)
Definition rectangular (df : DataFrame) (n : nat) : Prop :=
  ∀ label s, df !! label = Some s → length s = n.

(** The number of entries a mask keeps of a column with [n] entries. *)
Fixpoint kept (mask : list bool) (n : nat) : nat :=
  match mask, n with
  | b :: mask', S n' => if b then S (kept mask' n') else kept mask' n'
  | _, _ => 0
  end.

(** ** Sample tables *)

Definition frame (ids ts cs : Series) : DataFrame :=
  <["Subject_ID" := ids]> (<["Time_h" := ts]> (<["Concentration_mg_L" := cs]> ∅)).

(** One subject whose rows are not listed by time. *)
Definition df_unsorted : DataFrame :=
  frame [1; 1; 1] [2; 0; 1] [3; 0; 4].

(** One subject measured twice at 2 hours. *)
Definition df_duplicate : DataFrame :=
  frame [1; 1] [2; 2] [5; 7].

(** Two subjects, concentrations 4 and 6 at 1 hour. *)
Definition df_pair : DataFrame :=
  frame [1; 2] [1; 1] [4; 6].

(** The sample table without its concentration column. *)
Definition df_no_concentration : DataFrame :=
  <["Subject_ID" := [1; 1; 1; 2; 2; 2; 2]]>
    (<["Time_h" := [0; 1; 2; 0; 1; 2; 4]]> ∅).

(** The three columns without rows. *)
Definition df_empty : DataFrame := frame [] [] [].

(** Two subjects measured at 0, 1 and 2 hours; subject 2 has a late sample. *)
Definition df_demo : DataFrame :=
  frame [1; 1; 1; 2; 2; 2; 2]
        [0; 1; 2; 0; 1; 2; 4]
        [0; 4; 3; 0; 6; 5; 1].

(** The sample table with one more column. *)
Definition df_demo_dose : DataFrame :=
  <["Dose_mg" := [320; 320; 320; 320; 320; 320; 320]]> df_demo.

(** The sample table without its time column. *)
Definition df_no_time : DataFrame := delete "Time_h" df_demo.

Example demo_subjects : subjects df_demo = Ok [1; 2].
Proof. reflexivity. Qed.

Example demo_series_2 :
  subject_series df_demo 2 = Ok [(0, 0); (1, 6); (2, 5); (4, 1)].
Proof. reflexivity. Qed.

Example demo_semilog_2 :
  semilog_series df_demo 2 = Ok [(1, 6); (2, 5); (4, 1)].
Proof. reflexivity. Qed.

Example demo_mean_data :
  mean_data df_demo =
  Ok [ {| Time_h := 0; agg_mean := Some 0; agg_std := Sqrt 0 |};
       {| Time_h := 1; agg_mean := Some 5; agg_std := Sqrt 2 |};
       {| Time_h := 2; agg_mean := Some 4; agg_std := Sqrt 2 |};
       {| Time_h := 4; agg_mean := Some 1; agg_std := NaN |} ].
Proof. reflexivity. Qed.


(** ** Boolean indexing *)

Section Select.
Context {A B : Type}.

Lemma select_nil_r (mask : list bool) : select mask (@nil A) = [].
Proof. by destruct mask. Qed.

Lemma select_combine (mask : list bool) (a : list A) (b : list B) :
  select mask (combine a b) = combine (select mask a) (select mask b).
Proof.
  revert a b; induction mask as [|m mask IH]; intros [|x a] [|y b]; simpl;
    try done.
  - destruct m; simpl; by rewrite ?select_nil_r, ?combine_nil.
  - destruct m; simpl; by rewrite IH.
Qed.

Lemma select_map_filter (f : A → bool) (g : A → B) (l : list A) :
  select (map f l) (map g l) = map g (List.filter f l).
Proof.
  induction l as [|x l IH]; simpl; [done|].
  destruct (f x); simpl; by rewrite IH.
Qed.

Lemma select_filter (f : A → bool) (l : list A) :
  select (map f l) l = List.filter f l.
Proof.
  induction l as [|x l IH]; simpl; [done|].
  destruct (f x); by rewrite IH.
Qed.

Lemma select_fst_mask (f : A → bool) (ks : list A) (rest : list B) :
  select (map f ks) (combine ks rest) =
  List.filter (λ p, f p.1) (combine ks rest).
Proof.
  revert rest; induction ks as [|k ks IH]; intros [|r rest]; simpl;
    try done.
  destruct (f k); by rewrite IH.
Qed.

Lemma select_snd_mask (f : B → bool) (ks : list A) (vs : list B) :
  select (map f vs) (combine ks vs) =
  List.filter (λ p, f p.2) (combine ks vs).
Proof.
  revert ks; induction vs as [|v vs IH]; intros [|k ks]; simpl;
    try done.
  destruct (f v); by rewrite IH.
Qed.

Lemma select_map_snd (f : A → bool) (ks : list A) (rest : list B) :
  select (map f ks) rest = map snd (List.filter (λ p, f p.1) (combine ks rest)).
Proof.
  revert rest; induction ks as [|k ks IH]; intros [|r rest]; simpl;
    try done.
  destruct (f k); simpl; by rewrite IH.
Qed.

Lemma select_sublist (mask : list bool) (l : list A) :
  sublist (select mask l) l.
Proof.
  revert l; induction mask as [|m mask IH]; intros l.
  - destruct l; apply sublist_nil_l.
  - destruct l as [|x l]; simpl; [constructor|].
    destruct m; [by apply sublist_skip | by apply sublist_cons].
Qed.
End Select.

Lemma getitem_Ok (df : DataFrame) label s :
  df !! label = Some s → getitem df label = Ok s.
Proof. unfold getitem. by intros ->. Qed.

Lemma lookup_bool_index (df : DataFrame) mask label s :
  df !! label = Some s → bool_index df mask !! label = Some (select mask s).
Proof. intros H. unfold bool_index. by rewrite lookup_fmap, H. Qed.

Lemma getitem_bool_index (df : DataFrame) mask label s :
  df !! label = Some s →
  getitem (bool_index df mask) label = Ok (select mask s).
Proof. intros H. by apply getitem_Ok, lookup_bool_index. Qed.

Lemma loaded_xy df ids ts cs : loaded df ids ts cs → xy df = Ok (ts, cs).
Proof.
  intros [_ Ht Hc _ _]. unfold xy.
  by rewrite (getitem_Ok _ _ _ Ht), (getitem_Ok _ _ _ Hc).
Qed.

Lemma filter_sublist {A} (f : A → bool) (l : list A) :
  sublist (List.filter f l) l.
Proof.
  induction l as [|x l IH]; simpl; [constructor|].
  destruct (f x); [by apply sublist_skip | by apply sublist_cons].
Qed.

Lemma Qgt_bool_iff x v : Qgt_bool x v = true ↔ v < x.
Proof.
  unfold Qgt_bool. rewrite negb_true_iff, <- not_true_iff_false, Qle_bool_iff.
  split; [apply Qnot_le_lt | apply Qlt_not_le].
Qed.

Lemma Qlt_bool_iff x y : Qlt_bool x y = true ↔ x < y.
Proof. apply Qgt_bool_iff. Qed.

(** ** Series of one subject on a loaded table *)

Section Loaded.
Context (df : DataFrame) (ids ts cs : Series).
Hypothesis Hdf : loaded df ids ts cs.

Lemma subject_data_loaded u :
  subject_data df u = Ok (bool_index df (eq_mask ids u)).
Proof.
  unfold subject_data. by rewrite (getitem_Ok _ _ _ (loaded_ids _ _ _ _ Hdf)).
Qed.

Lemma xy_bool_index mask :
  xy (bool_index df mask) = Ok (select mask ts, select mask cs).
Proof.
  unfold xy.
  rewrite (getitem_bool_index _ _ _ _ (loaded_ts _ _ _ _ Hdf)).
  by rewrite (getitem_bool_index _ _ _ _ (loaded_cs _ _ _ _ Hdf)).
Qed.

Lemma subject_series_loaded u :
  subject_series df u = Ok (select (eq_mask ids u) (combine ts cs)).
Proof.
  unfold subject_series. rewrite subject_data_loaded. simpl.
  unfold points. rewrite xy_bool_index. simpl.
  by rewrite select_combine.
Qed.

Lemma records_subject_data u :
  records (bool_index df (eq_mask ids u)) =
  Ok (rows_of u (observations ids ts cs)).
Proof.
  unfold records.
  rewrite (getitem_bool_index _ _ _ _ (loaded_ids _ _ _ _ Hdf)). simpl.
  rewrite xy_bool_index. simpl. f_equal.
  rewrite <- !select_combine. unfold observations, eq_mask.
  apply (select_fst_mask (λ x, Qeq_bool x u)).
Qed.
End Loaded.

Section Semilog.
Context (df : DataFrame) (ids ts cs : Series).
Hypothesis Hdf : loaded df ids ts cs.

Lemma semilog_series_loaded u :
  semilog_series df u =
  Ok (List.filter (λ p, Qgt_bool p.2 0)
        (select (eq_mask ids u) (combine ts cs))).
Proof.
  destruct Hdf as [Hi Ht Hc _ _].
  unfold semilog_series. rewrite (subject_data_loaded _ _ _ _ Hdf). simpl.
  set (m := eq_mask ids u).
  unfold data_nonzero. rewrite (getitem_bool_index _ _ _ _ Hc). simpl.
  unfold points, xy.
  rewrite (getitem_bool_index _ _ "Time_h" (select m ts))
    by by apply lookup_bool_index.
  rewrite (getitem_bool_index _ _ "Concentration_mg_L" (select m cs))
    by by apply lookup_bool_index.
  simpl. f_equal.
  rewrite <- select_combine, (select_combine m).
  apply (select_snd_mask (λ x, Qgt_bool x 0)).
Qed.
End Semilog.

Lemma filter_map_snd {A B} (f : B → bool) (l : list (A * B)) :
  List.filter f (map snd l) = map snd (List.filter (λ p, f p.2) l).
Proof.
  induction l as [|p l IH]; simpl; [done|].
  destruct (f p.2); simpl; by rewrite IH.
Qed.

(** C10: the series drawn for a subject on the semi-logarithmic chart
    consists of exactly those observations of the subject in the table
    whose concentration is strictly positive, in their table order (the
    order of the subject's full series); the others are dropped and no
    exception is raised. *)
Theorem C10_semilog_series_positive_points df ids ts cs u :
  loaded df ids ts cs →
  ∃ full semi,
    subject_series df u = Ok full ∧
    full = map snd (rows_of u (observations ids ts cs)) ∧
    semilog_series df u = Ok semi ∧
    semi = map snd (List.filter (λ o, Qgt_bool (concentration_mg_l o) 0)
                      (rows_of u (observations ids ts cs))) ∧
    semi = List.filter (λ p, Qgt_bool p.2 0) full ∧
    sublist semi full ∧
    (∀ t c, (t, c) ∈ semi ↔ (t, c) ∈ full ∧ 0 < c) ∧
    (∀ t c, (t, c) ∈ semi ↔
       ∃ i, (i, (t, c)) ∈ observations ids ts cs ∧ i == u ∧ 0 < c).
Proof.
  intros Hdf.
  assert (Hfull : select (eq_mask ids u) (combine ts cs) =
                  map snd (rows_of u (observations ids ts cs)))
    by apply (select_map_snd (λ x, Qeq_bool x u)).
  exists (map snd (rows_of u (observations ids ts cs))),
    (List.filter (λ p, Qgt_bool p.2 0)
       (map snd (rows_of u (observations ids ts cs)))).
  split; [rewrite <- Hfull; by apply subject_series_loaded|].
  split; [done|].
  split; [rewrite <- Hfull; by apply (semilog_series_loaded df ids ts cs)|].
  split; [apply (filter_map_snd (λ p, Qgt_bool p.2 0))|].
  split; [done|]. split; [apply filter_sublist|].
  split.
  - intros t c. rewrite !list_elem_of_In, filter_In. simpl.
    by rewrite Qgt_bool_iff.
  - intros t c. rewrite list_elem_of_In, filter_In. simpl.
    rewrite Qgt_bool_iff, in_map_iff. split.
    + intros [([i p] & Hp & [Hin Hi]%filter_In) Hc]. simpl in Hp. subst p.
      exists i. split; [by apply list_elem_of_In|].
      split; [by apply Qeq_bool_iff | done].
    + intros (i & Hin%list_elem_of_In & Hi & Hc). split; [|done].
      exists (i, (t, c)). split; [done|].
      apply filter_In. split; [done | by apply Qeq_bool_iff].
Qed.

Lemma C10_witness :
  ∃ full semi,
    subject_series df_demo 2 = Ok full ∧
    full = [(0, 0); (1, 6); (2, 5); (4, 1)] ∧
    semilog_series df_demo 2 = Ok semi ∧
    semi = [(1, 6); (2, 5); (4, 1)].
Proof.
  destruct (C10_semilog_series_positive_points df_demo
              [1; 1; 1; 2; 2; 2; 2] [0; 1; 2; 0; 1; 2; 4] [0; 4; 3; 0; 6; 5; 1] 2)
    as (full & semi & Hfull & -> & Hsemi & -> & _).
  - split; reflexivity.
  - exists [(0, 0); (1, 6); (2, 5); (4, 1)], [(1, 6); (2, 5); (4, 1)].
    split; [exact Hfull|]. split; [reflexivity|].
    split; [exact Hsemi | reflexivity].
Defined.

(** ** Order of a subject's series *)

Lemma subject_series_rows df ids ts cs u :
  loaded df ids ts cs →
  subject_series df u = Ok (map snd (rows_of u (observations ids ts cs))).
Proof.
  intros Hdf. rewrite (subject_series_loaded _ _ _ _ Hdf). f_equal.
  apply (select_map_snd (λ x, Qeq_bool x u)).
Qed.

Lemma follows_spec o1 o2 :
  follows o1 o2 = true → subject_id o1 == subject_id o2 → time_h o1 < time_h o2.
Proof.
  unfold follows. intros H Heq. apply Qeq_bool_iff in Heq.
  rewrite Heq in H. by apply Qlt_bool_iff.
Qed.

Lemma time_ordered_rows_of u rows :
  time_ordered rows = true →
  StronglySorted Qlt (map time_h (rows_of u rows)).
Proof.
  induction rows as [|o rows IH]; simpl; [constructor|].
  rewrite andb_true_iff, forallb_forall. intros [Ho Hrows].
  destruct (Qeq_bool (subject_id o) u) eqn:Hu; simpl; [|by apply IH].
  constructor; [by apply IH|].
  apply List.Forall_forall. intros t [o' [<- Hin]]%in_map_iff.
  apply filter_In in Hin as [Hin Hu'].
  apply follows_spec; [by apply Ho|].
  apply Qeq_bool_iff in Hu, Hu'. by rewrite Hu, Hu'.
Qed.

(** C4 (as the code behaves): the series of a subject lists the subject's
    rows in the order of the input table; it is strictly ascending by time
    whenever the table lists every subject's rows by increasing time. *)
Theorem C4_series_in_table_order df ids ts cs u :
  loaded df ids ts cs →
  ∃ pts,
    subject_series df u = Ok pts ∧
    pts = map snd (rows_of u (observations ids ts cs)) ∧
    (time_ordered (observations ids ts cs) = true → ascending pts).
Proof.
  intros Hdf. eexists. split; [by apply subject_series_rows|].
  split; [done|]. intros Hord. unfold ascending.
  rewrite map_map. by apply time_ordered_rows_of.
Qed.

Lemma C4_witness :
  ∃ pts, subject_series df_demo 2 = Ok pts ∧ ascending pts.
Proof.
  destruct (C4_series_in_table_order df_demo
              [1; 1; 1; 2; 2; 2; 2] [0; 1; 2; 0; 1; 2; 4] [0; 4; 3; 0; 6; 5; 1] 2)
    as (pts & Hpts & _ & Hasc).
  - split; reflexivity.
  - exists pts. split; [exact Hpts|]. apply Hasc. reflexivity.
Defined.

(** C4, as stated, fails on a valid table whose rows are not listed by
    time: the series keeps the table order 2, 0, 1. *)
Lemma C4_counterexample :
  loaded df_unsorted [1; 1; 1] [2; 0; 1] [3; 0; 4] ∧
  valid_dataset (observations [1; 1; 1] [2; 0; 1] [3; 0; 4]) = true ∧
  subject_series df_unsorted 1 = Ok [(2, 3); (0, 0); (1, 4)] ∧
  ¬ ascending [(2, 3); (0, 0); (1, 4)].
Proof.
  split; [split; reflexivity|]. split; [reflexivity|]. split; [reflexivity|].
  unfold ascending. simpl. intros H.
  apply StronglySorted_inv in H as [_ H].
  apply Forall_inv in H. revert H. by vm_compute.
Qed.

(** ** Rows sharing subject and time *)

Lemma filter_lookup {A} (f : A → bool) (l : list A) j y :
  l !! j = Some y → f y = true → ∃ k, List.filter f l !! k = Some y.
Proof.
  intros Hj Hy. apply list_elem_of_lookup, list_elem_of_In, filter_In.
  split; [|done]. by apply list_elem_of_In, list_elem_of_lookup; exists j.
Qed.

Lemma filter_keeps_order {A} (f : A → bool) (l : list A) i j x y :
  (i < j)%nat → l !! i = Some x → l !! j = Some y →
  f x = true → f y = true →
  ∃ i' j', (i' < j')%nat ∧
    List.filter f l !! i' = Some x ∧ List.filter f l !! j' = Some y.
Proof.
  revert i j. induction l as [|a l IH]; intros i j Hij Hi Hj Hx Hy; [done|].
  destruct j as [|j]; [lia|]. destruct i as [|i]; simpl in *.
  - injection Hi as ->. rewrite Hx.
    destruct (filter_lookup f l j y Hj Hy) as [k Hk].
    exists 0%nat, (S k). split; [lia|]. by split.
  - destruct (IH i j) as (i' & j' & Hlt & Hi' & Hj'); [lia|done..|].
    destruct (f a).
    + exists (S i'), (S j'). split; [lia|]. by split.
    + exists i', j'. by repeat split.
Qed.

(** C2 (as the code behaves): two rows that share subject and time are both
    kept, in table order, in the series of that subject, and deriving the
    series raises no exception. *)
Theorem C2_duplicate_rows_kept df ids ts cs u i j o1 o2 :
  loaded df ids ts cs →
  (i < j)%nat →
  observations ids ts cs !! i = Some o1 →
  observations ids ts cs !! j = Some o2 →
  subject_id o1 == u → subject_id o2 == u → time_h o1 == time_h o2 →
  ∃ pts i' j',
    subject_series df u = Ok pts ∧
    (i' < j')%nat ∧
    pts !! i' = Some (time_h o1, concentration_mg_l o1) ∧
    pts !! j' = Some (time_h o2, concentration_mg_l o2).
Proof.
  intros Hdf Hij Hi Hj Hu1 Hu2 _.
  apply Qeq_bool_iff in Hu1, Hu2.
  destruct (filter_keeps_order (λ o, Qeq_bool (subject_id o) u)
              (observations ids ts cs) i j o1 o2)
    as (i' & j' & Hlt & Hi' & Hj'); try done.
  exists (map snd (rows_of u (observations ids ts cs))), i', j'.
  split; [by apply subject_series_rows|]. split; [done|].
  unfold rows_of. rewrite !list_lookup_fmap, Hi', Hj'.
  by destruct o1 as [? []], o2 as [? []].
Qed.

Lemma C2_witness :
  ∃ pts i' j',
    subject_series df_duplicate 1 = Ok pts ∧
    (i' < j')%nat ∧
    pts !! i' = Some (2, 5) ∧ pts !! j' = Some (2, 7).
Proof.
  apply (C2_duplicate_rows_kept df_duplicate [1; 1] [2; 2] [5; 7] 1
           0%nat 1%nat (1, (2, 5)) (1, (2, 7))).
  - split; reflexivity.
  - lia.
  - reflexivity.
  - reflexivity.
  - reflexivity.
  - reflexivity.
  - reflexivity.
Defined.

(** C2, as stated, fails: for one subject with two rows at 2 hours the
    derivation returns a series (it raises nothing) that holds both rows. *)
Lemma C2_counterexample :
  loaded df_duplicate [1; 1] [2; 2] [5; 7] ∧
  no_duplicates (observations [1; 1] [2; 2] [5; 7]) = false ∧
  subject_series df_duplicate 1 = Ok [(2, 5); (2, 7)] ∧
  ¬ (∃ e, subject_series df_duplicate 1 = Raise e).
Proof.
  split; [split; reflexivity|]. split; [reflexivity|]. split; [reflexivity|].
  intros [e He]. discriminate He.
Qed.

(** ** Distinct values *)

Lemma existsb_Qeq x l :
  existsb (Qeq_bool x) l = true ↔ ∃ y, In y l ∧ x == y.
Proof.
  rewrite existsb_exists. split; intros (y & Hy & Heq); exists y;
    (split; [done|]); by apply Qeq_bool_iff.
Qed.

Lemma unique_from_In seen s x :
  In x (unique_from seen s) → In x s ∧ existsb (Qeq_bool x) seen = false.
Proof.
  revert seen. induction s as [|a s IH]; intros seen; simpl; [done|].
  destruct (existsb (Qeq_bool a) seen) eqn:Ha.
  - intros [Hin Hx]%IH. auto.
  - intros [<- | [Hin Hx]%IH]; [auto|].
    simpl in Hx. apply orb_false_iff in Hx as [_ Hx]. auto.
Qed.

Lemma unique_from_distinct seen s : distinct (unique_from seen s).
Proof.
  revert seen. induction s as [|a s IH]; intros seen; simpl; [constructor|].
  destruct (existsb (Qeq_bool a) seen); [apply IH|].
  constructor; [apply IH|].
  apply List.Forall_forall. intros b [_ Hb]%unique_from_In Hab.
  simpl in Hb. apply orb_false_iff in Hb as [Hb _].
  apply not_true_iff_false in Hb. apply Hb, Qeq_bool_iff. by symmetry.
Qed.

Lemma unique_from_cover seen s x :
  In x s →
  existsb (Qeq_bool x) seen = true ∨ ∃ u, In u (unique_from seen s) ∧ x == u.
Proof.
  revert seen. induction s as [|a s IH]; intros seen; simpl; [done|].
  intros [-> | Hin].
  - destruct (existsb (Qeq_bool x) seen); [by left|].
    right. exists x. split; [by left | reflexivity].
  - destruct (existsb (Qeq_bool a) seen) eqn:Ha; [by apply IH|].
    destruct (IH (a :: seen) Hin) as [Hx | (u & Hu & Hxu)].
    + simpl in Hx. apply orb_true_iff in Hx as [Hx | Hx]; [|by left].
      right. exists a. split; [by left | by apply Qeq_bool_iff].
    + right. exists u. split; [by right | done].
Qed.

Lemma unique_cover s x : In x s → existsb (Qeq_bool x) (unique s) = true.
Proof.
  intros Hin. apply existsb_Qeq.
  by destruct (unique_from_cover [] s x Hin) as [? | ?].
Qed.

Lemma distinct_In_eq l a b : distinct l → In a l → In b l → a == b → a = b.
Proof.
  induction 1 as [|c l Hl IH Hc]; [done|].
  rewrite List.Forall_forall in Hc.
  intros [<- | Ha] [<- | Hb] Hab; try done.
  - by destruct (Hc b Hb).
  - destruct (Hc a Ha). by symmetry.
  - by apply IH.
Qed.

(** ** The subjects' rows partition the table *)

Section Partition.
Context {A : Type} (key : A → Q).

Lemma filter_all (f : A → bool) (l : list A) :
  (∀ x, In x l → f x = true) → List.filter f l = l.
Proof.
  induction l as [|a l IH]; simpl; intros H; [done|].
  rewrite (H a) by auto. f_equal. apply IH. auto.
Qed.

Lemma filter_none (l : list A) : List.filter (λ _, false) l = [].
Proof. by induction l. Qed.

Lemma filter_or_perm (f g : A → bool) (l : list A) :
  (∀ x, In x l → f x = true → g x = true → False) →
  List.filter (λ x, f x || g x) l ≡ₚ List.filter f l ++ List.filter g l.
Proof.
  induction l as [|a l IH]; simpl; intros H; [done|].
  assert (IH' := IH (λ x Hx, H x (or_intror Hx))).
  destruct (f a) eqn:Hf, (g a) eqn:Hg; simpl.
  - destruct (H a); auto.
  - by constructor.
  - rewrite IH'. apply Permutation_middle.
  - done.
Qed.

Lemma concat_filter_perm (us : list Q) (l : list A) :
  distinct us →
  concat (map (λ u, List.filter (λ r, Qeq_bool (key r) u) l) us) ≡ₚ
  List.filter (λ r, existsb (Qeq_bool (key r)) us) l.
Proof.
  induction 1 as [|u us Hus IH Hu]; simpl; [by rewrite filter_none|].
  rewrite IH. symmetry. apply filter_or_perm.
  intros r _ Hr (u' & Hu' & Hru')%existsb_Qeq.
  rewrite List.Forall_forall in Hu. apply (Hu u' Hu').
  apply Qeq_bool_iff in Hr. by rewrite <- Hr.
Qed.

Lemma unique_partition (l : list A) :
  concat (map (λ u, List.filter (λ r, Qeq_bool (key r) u) l)
              (unique (map key l))) ≡ₚ l.
Proof.
  rewrite concat_filter_perm by apply unique_from_distinct.
  rewrite filter_all; [done|].
  intros r Hr. apply unique_cover, in_map_iff. by exists r.
Qed.
End Partition.

Lemma map_fst_combine {A B} (l : list A) (k : list B) :
  length l = length k → map fst (combine l k) = l.
Proof.
  revert k. induction l as [|a l IH]; intros [|b k] Hlen; simpl in *;
    try done.
  f_equal. apply IH. lia.
Qed.

Lemma observations_ids ids ts cs :
  length ts = length ids → length cs = length ids →
  map subject_id (observations ids ts cs) = ids.
Proof.
  intros Ht Hc. apply map_fst_combine.
  rewrite length_combine. lia.
Qed.

Lemma subject_records_loaded df ids ts cs u :
  loaded df ids ts cs →
  subject_records df u = Ok (rows_of u (observations ids ts cs)).
Proof.
  intros Hdf. unfold subject_records.
  rewrite (subject_data_loaded _ _ _ _ Hdf). simpl.
  by apply records_subject_data.
Qed.

(** C7: the frames selected for the subjects partition the table: their
    rows together are the rows of the table (as a multiset), and every
    row is selected for exactly one subject. *)
Theorem C7_subject_data_partitions_table df ids ts cs :
  loaded df ids ts cs →
  ∃ subs,
    subjects df = Ok subs ∧
    (∀ u, subject_records df u = Ok (rows_of u (observations ids ts cs))) ∧
    concat (map (λ u, rows_of u (observations ids ts cs)) subs) ≡ₚ
      observations ids ts cs ∧
    ∀ o, o ∈ observations ids ts cs →
      ∃ u, u ∈ subs ∧ o ∈ rows_of u (observations ids ts cs) ∧
        ∀ u', u' ∈ subs → o ∈ rows_of u' (observations ids ts cs) → u' = u.
Proof.
  intros Hdf. exists (unique ids).
  assert (Hids : map subject_id (observations ids ts cs) = ids)
    by (destruct Hdf; by apply observations_ids).
  split; [|split; [|split]].
  - unfold subjects. by rewrite (getitem_Ok _ _ _ (loaded_ids _ _ _ _ Hdf)).
  - intros u. by apply subject_records_loaded.
  - rewrite <- Hids at 1. apply (unique_partition subject_id).
  - intros o Ho%list_elem_of_In.
    assert (Hin : In (subject_id o) ids)
      by (rewrite <- Hids; apply in_map_iff; by exists o).
    destruct (unique_from_cover [] ids _ Hin) as [? | (u & Hu & Hou)]; [done|].
    exists u. split; [by apply list_elem_of_In|]. split.
    + apply list_elem_of_In, filter_In. split; [done|]. by apply Qeq_bool_iff.
    + intros u' Hu'%list_elem_of_In [_ Hou']%list_elem_of_In%filter_In.
      apply Qeq_bool_iff in Hou'.
      apply (distinct_In_eq (unique ids)); try done.
      * apply unique_from_distinct.
      * by rewrite <- Hou'.
Qed.

Lemma C7_witness :
  ∃ subs,
    subjects df_demo = Ok subs ∧
    concat (map (λ u, rows_of u (observations [1; 1; 1; 2; 2; 2; 2]
                         [0; 1; 2; 0; 1; 2; 4] [0; 4; 3; 0; 6; 5; 1])) subs) ≡ₚ
      observations [1; 1; 1; 2; 2; 2; 2]
                   [0; 1; 2; 0; 1; 2; 4] [0; 4; 3; 0; 6; 5; 1].
Proof.
  destruct (C7_subject_data_partitions_table df_demo
              [1; 1; 1; 2; 2; 2; 2] [0; 1; 2; 0; 1; 2; 4] [0; 4; 3; 0; 6; 5; 1])
    as (subs & Hsubs & _ & Hperm & _).
  - split; reflexivity.
  - exists subs. split; [exact Hsubs | exact Hperm].
Defined.

(** ** Group keys *)

Lemma insert_key_In k ks x : In x (insert_key k ks) → x = k ∨ In x ks.
Proof.
  induction ks as [|k' ks IH]; simpl.
  - intros [<- | []]. by left.
  - destruct (k ?= k'); simpl.
    + intros [<- | ?]; auto.
    + intros [<- | ?]; auto.
    + intros [<- | [-> | ?]%IH]; auto.
Qed.

Lemma insert_key_head k ks : In k (insert_key k ks).
Proof.
  induction ks as [|k' ks IH]; simpl; [by left|].
  destruct (k ?= k'); simpl; auto.
Qed.

Lemma insert_key_cover k ks x :
  In x ks → ∃ y, In y (insert_key k ks) ∧ y == x.
Proof.
  induction ks as [|k' ks IH]; simpl; [done|].
  destruct (k ?= k') eqn:Hk; simpl.
  - apply Qeq_alt in Hk. intros [<- | Hx].
    + exists k. auto.
    + exists x. split; [auto | reflexivity].
  - intros Hx. exists x. split; [auto | reflexivity].
  - intros [<- | Hx].
    + exists k'. split; [auto | reflexivity].
    + destruct (IH Hx) as (y & Hy & Hyx). exists y. auto.
Qed.

Lemma insert_key_sorted k ks :
  StronglySorted Qlt ks → StronglySorted Qlt (insert_key k ks).
Proof.
  induction 1 as [|k' ks Hks IH Hall]; simpl; [by repeat constructor|].
  assert (Hk' := proj1 (List.Forall_forall _ _) Hall).
  destruct (k ?= k') eqn:Hk.
  - apply Qeq_alt in Hk. constructor; [done|].
    apply List.Forall_forall. intros x Hx. rewrite Hk. by apply Hk'.
  - apply Qlt_alt in Hk. constructor; [by constructor|].
    apply List.Forall_forall. intros x [<- | Hx]; [done|].
    apply Qlt_trans with k'; [done | by apply Hk'].
  - apply Qgt_alt in Hk. constructor; [done|].
    apply List.Forall_forall. intros x [-> | Hx]%insert_key_In; [done|].
    by apply Hk'.
Qed.

Lemma group_keys_sorted s : StronglySorted Qlt (group_keys s).
Proof.
  induction s as [|x s IH]; simpl; [constructor | by apply insert_key_sorted].
Qed.

Lemma group_keys_In s k : In k (group_keys s) → In k s.
Proof.
  induction s as [|x s IH]; simpl; [done|].
  intros [-> | ?]%insert_key_In; auto.
Qed.

Lemma group_keys_cover s t : In t s → ∃ k, In k (group_keys s) ∧ k == t.
Proof.
  induction s as [|x s IH]; simpl; [done|].
  intros [-> | Ht].
  - exists t. split; [apply insert_key_head | reflexivity].
  - destruct (IH Ht) as (k & Hk & Hkt).
    destruct (insert_key_cover x _ k Hk) as (y & Hy & Hyk).
    exists y. split; [done|]. by rewrite Hyk.
Qed.

Lemma sorted_distinct l : StronglySorted Qlt l → distinct l.
Proof.
  induction 1 as [|a l Hl IH Ha]; constructor; [done|].
  eapply List.Forall_impl; [|exact Ha].
  intros b Hab Heq. rewrite Heq in Hab. by apply Qlt_irrefl in Hab.
Qed.

(** ** Groups *)

Lemma group_at_time ts cs k : select (eq_mask ts k) cs = at_time ts cs k.
Proof. apply (select_map_snd (λ x, Qeq_bool x k)). Qed.

Lemma at_time_nonempty ts cs k :
  length cs = length ts → In k ts → at_time ts cs k ≠ [].
Proof.
  unfold at_time. revert cs.
  induction ts as [|t ts IH]; intros [|c cs] Hlen; simpl in *; try done.
  intros Hk. destruct (Qeq_bool t k) eqn:Ht; simpl; [done|].
  destruct Hk as [-> | Hk].
  - by rewrite Qeq_bool_refl in Ht.
  - apply IH; [lia | done].
Qed.

Lemma at_time_proper ts cs t t' : t == t' → at_time ts cs t = at_time ts cs t'.
Proof.
  intros Heq. unfold at_time. f_equal. apply filter_ext.
  intros p. by rewrite Heq.
Qed.

Lemma mean_nonempty g :
  g ≠ [] → ∃ m, mean g = Some m ∧ m == Qsum g / Qlen g.
Proof.
  destruct g as [|x g]; [done|]. intros _. eexists. split; [done|].
  apply Qred_correct.
Qed.

Lemma groupby_agg_rows ts cs r :
  In r (groupby_agg ts cs) ↔
  ∃ k, In k (group_keys ts) ∧
    r = {| Time_h := k; agg_mean := mean (at_time ts cs k);
           agg_std := std (at_time ts cs k) |}.
Proof.
  unfold groupby_agg. rewrite in_map_iff.
  split; intros (k & H1 & H2); exists k.
  - subst r. by rewrite !group_at_time.
  - subst r. by rewrite !group_at_time.
Qed.

Lemma groupby_agg_times ts cs : map Time_h (groupby_agg ts cs) = group_keys ts.
Proof.
  unfold groupby_agg. rewrite map_map. simpl. apply map_id.
Qed.

Lemma mean_data_loaded df ids ts cs :
  loaded df ids ts cs → mean_data df = Ok (groupby_agg ts cs).
Proof.
  intros [_ Ht Hc _ _]. unfold mean_data.
  by rewrite (getitem_Ok _ _ _ Ht), (getitem_Ok _ _ _ Hc).
Qed.

(** ** The standard deviation of a single value *)

Lemma std_single g : length g = 1%nat → std g = NaN.
Proof. intros Hlen. unfold std. by rewrite Hlen. Qed.

(** ** The aggregate series *)

(** C1 (as the code behaves): at a time with exactly one observation the
    aggregate row is present, raises nothing, and reports NaN as standard
    deviation. *)
Theorem C1_single_observation_std_is_nan df ids ts cs t :
  loaded df ids ts cs →
  t ∈ ts →
  length (at_time ts cs t) = 1%nat →
  ∃ rows r,
    mean_data df = Ok rows ∧
    r ∈ rows ∧ Time_h r == t ∧
    agg_std r = NaN ∧ real_of_std (agg_std r) = None.
Proof.
  intros Hdf Ht%list_elem_of_In Hone.
  destruct (group_keys_cover ts t Ht) as (k & Hk & Hkt).
  exists (groupby_agg ts cs),
    {| Time_h := k; agg_mean := mean (at_time ts cs k);
       agg_std := std (at_time ts cs k) |}.
  split; [by apply (mean_data_loaded df ids)|].
  split; [apply list_elem_of_In, groupby_agg_rows; by exists k|]. simpl.
  split; [done|].
  rewrite (at_time_proper ts cs k t Hkt), (std_single _ Hone). done.
Qed.

Lemma C1_witness :
  ∃ rows r,
    mean_data df_demo = Ok rows ∧
    r ∈ rows ∧ Time_h r == 4 ∧
    agg_std r = NaN ∧ real_of_std (agg_std r) = None.
Proof.
  apply (C1_single_observation_std_is_nan df_demo
           [1; 1; 1; 2; 2; 2; 2] [0; 1; 2; 0; 1; 2; 4] [0; 4; 3; 0; 6; 5; 1] 4).
  - split; reflexivity.
  - apply list_elem_of_In. simpl. tauto.
  - reflexivity.
Defined.

(** C1, as stated, fails: only subject 2 is measured at 4 hours, and the
    aggregate row at 4 hours reports NaN, which is not the number 0. *)
Lemma C1_counterexample :
  at_time [0; 1; 2; 0; 1; 2; 4] [0; 4; 3; 0; 6; 5; 1] 4 = [1] ∧
  ∃ rows r,
    mean_data df_demo = Ok rows ∧
    rows !! 3%nat = Some r ∧
    (∀ r', r' ∈ rows → Time_h r' == 4 → r' = r) ∧
    Time_h r = 4 ∧
    agg_std r = NaN ∧
    agg_std r ≠ Sqrt 0 ∧
    real_of_std (agg_std r) ≠ Some 0%R.
Proof.
  split; [reflexivity|].
  exists [ {| Time_h := 0; agg_mean := Some 0; agg_std := Sqrt 0 |};
           {| Time_h := 1; agg_mean := Some 5; agg_std := Sqrt 2 |};
           {| Time_h := 2; agg_mean := Some 4; agg_std := Sqrt 2 |};
           {| Time_h := 4; agg_mean := Some 1; agg_std := NaN |} ],
         {| Time_h := 4; agg_mean := Some 1; agg_std := NaN |}.
  split; [reflexivity|]. split; [reflexivity|]. split.
  - intros r' Hr'. rewrite !elem_of_cons, elem_of_nil in Hr'.
    destruct Hr' as [-> | [-> | [-> | [-> | []]]]]; simpl; intros H;
      try done; by vm_compute in H.
  - repeat split; discriminate.
Qed.

(** ** Running statements *)

Import Script.

Lemma bind_ok {A B} (m : M A) (k : A → M B) s s' a :
  m s = (s', Ok a) → (m ≫= k) s = k a s'.
Proof. intros H. unfold mbind, M_bind. by rewrite H. Qed.

Lemma bind_raise {A B} (m : M A) (k : A → M B) s s' e :
  m s = (s', Raise e) → (m ≫= k) s = (s', Raise e).
Proof. intros H. unfold mbind, M_bind. by rewrite H. Qed.

Lemma lift_ok {A B} (r : result A) (k : A → M B) s a :
  r = Ok a → (lift r ≫= k) s = k a s.
Proof. by intros ->. Qed.

Lemma lift_raise {A B} (r : result A) (k : A → M B) s e :
  r = Raise e → (lift r ≫= k) s = (s, Raise e).
Proof. by intros ->. Qed.

Lemma name_binds s x o : binds s x o → name x s = (s, Ok o).
Proof. intros (l & Hx & Hl). unfold name. by rewrite Hx, Hl. Qed.

Lemma frame_of_binds s x f : binds s x (Frame f) → frame_of x s = (s, Ok f).
Proof.
  intros H. unfold frame_of. by rewrite (bind_ok _ _ _ _ _ (name_binds _ _ _ H)).
Qed.

Lemma array_of_binds s x a : binds s x (Array a) → array_of x s = (s, Ok a).
Proof.
  intros H. unfold array_of. by rewrite (bind_ok _ _ _ _ _ (name_binds _ _ _ H)).
Qed.

Lemma stats_of_binds s x m : binds s x (Stats m) → stats_of x s = (s, Ok m).
Proof.
  intros H. unfold stats_of. by rewrite (bind_ok _ _ _ _ _ (name_binds _ _ _ H)).
Qed.

Lemma store_ok x o s : store x o s = ((store x o s).1, Ok tt).
Proof. reflexivity. Qed.

Lemma store_binds x o s : binds (store x o s).1 x o.
Proof.
  exists (length (heap s)). simpl. split.
  - apply lookup_insert_eq.
  - by apply list_lookup_middle.
Qed.

Lemma store_keeps x o s y o' :
  y ≠ x → binds s y o' → binds (store x o s).1 y o'.
Proof.
  intros Hne (l & Hy & Hl). exists l. simpl. split.
  - by rewrite lookup_insert_ne.
  - by apply lookup_app_l_Some.
Qed.

Lemma store_calls x o s : calls (store x o s).1 = calls s.
Proof. reflexivity. Qed.

Lemma preserved_refl s : preserved s s.
Proof. by intros x o _ _ H. Qed.

Lemma preserved_trans s1 s2 s3 :
  preserved s1 s2 → preserved s2 s3 → preserved s1 s3.
Proof. intros H12 H23 x o Hx1 Hx2 H. by apply H23, H12. Qed.

Lemma for_each_spec {A} (body : A → M unit) (out : A → list call) (l : list A) s0 :
  (∀ a s, preserved s0 s →
     ∃ s', body a s = (s', Ok tt) ∧ preserved s s' ∧
           calls s' = calls s ++ out a) →
  ∃ s', for_each l body s0 = (s', Ok tt) ∧ preserved s0 s' ∧
        calls s' = calls s0 ++ concat (map out l).
Proof.
  intros Hbody.
  assert (∀ s, preserved s0 s →
            ∃ s', for_each l body s = (s', Ok tt) ∧ preserved s s' ∧
                  calls s' = calls s ++ concat (map out l)) as H;
    [|apply H, preserved_refl].
  induction l as [|a l IH]; intros s Hs; simpl.
  - exists s. split; [done|]. split; [apply preserved_refl|].
    by rewrite app_nil_r.
  - destruct (Hbody a s Hs) as (s1 & Hrun1 & Hs1 & Hc1).
    destruct (IH s1 (preserved_trans _ _ _ Hs Hs1)) as (s2 & Hrun2 & Hs2 & Hc2).
    exists s2. rewrite (bind_ok _ _ _ _ _ Hrun1).
    split; [done|]. split; [by eapply preserved_trans|].
    by rewrite Hc2, Hc1, <- app_assoc.
Qed.

(** ** The statements on a loaded table *)

Section Subjects.
Context (table : DataFrame) (ids : Series).
Hypothesis Hids : table !! "Subject_ID" = Some ids.

Lemma subjects_ids : subjects table = Ok (unique ids).
Proof. unfold subjects. by rewrite (getitem_Ok _ _ _ Hids). Qed.

Lemma subject_data_ids u :
  subject_data table u = Ok (bool_index table (eq_mask ids u)).
Proof. unfold subject_data. by rewrite (getitem_Ok _ _ _ Hids). Qed.

Lemma colors_spec s : binds s "df" (Frame table) → colors s = (s, Ok tt).
Proof.
  intros H. unfold colors. rewrite (bind_ok _ _ _ _ _ (frame_of_binds _ _ _ H)).
  by rewrite (lift_ok _ _ _ _ subjects_ids).
Qed.

Lemma bind_subjects_spec s :
  binds s "df" (Frame table) →
  bind_subjects s = ((store "subjects" (Array (unique ids)) s).1, Ok tt).
Proof.
  intros H. unfold bind_subjects.
  rewrite (bind_ok _ _ _ _ _ (frame_of_binds _ _ _ H)).
  by rewrite (lift_ok _ _ _ _ subjects_ids).
Qed.

Lemma bind_subject_data_spec u s :
  binds s "df" (Frame table) →
  bind_subject_data u s =
  ((store "subject_data" (Frame (bool_index table (eq_mask ids u))) s).1, Ok tt).
Proof.
  intros H. unfold bind_subject_data.
  rewrite (bind_ok _ _ _ _ _ (frame_of_binds _ _ _ H)).
  by rewrite (lift_ok _ _ _ _ (subject_data_ids u)).
Qed.
End Subjects.

Section Statements.
Context (table : DataFrame) (ids ts cs : Series).
Hypothesis Hdf : loaded table ids ts cs.

Lemma plot_subject_data_spec u s :
  binds s "subject_data" (Frame (bool_index table (eq_mask ids u))) →
  plot_subject_data s = ((emit (plot_call ids ts cs u) s).1, Ok tt).
Proof.
  intros H. unfold plot_subject_data.
  rewrite (bind_ok _ _ _ _ _ (frame_of_binds _ _ _ H)).
  by rewrite (lift_ok _ _ _ _ (xy_bool_index _ _ _ _ Hdf _)).
Qed.

Lemma data_nonzero_loaded u :
  data_nonzero (bool_index table (eq_mask ids u)) =
  Ok (bool_index (bool_index table (eq_mask ids u))
        (gt_mask (select (eq_mask ids u) cs) 0)).
Proof.
  unfold data_nonzero.
  by rewrite (getitem_bool_index _ _ _ _ (loaded_cs _ _ _ _ Hdf)).
Qed.

Lemma xy_data_nonzero u :
  xy (bool_index (bool_index table (eq_mask ids u))
        (gt_mask (select (eq_mask ids u) cs) 0)) =
  Ok (select (gt_mask (select (eq_mask ids u) cs) 0) (select (eq_mask ids u) ts),
      select (gt_mask (select (eq_mask ids u) cs) 0) (select (eq_mask ids u) cs)).
Proof.
  unfold xy.
  rewrite (getitem_bool_index _ _ "Time_h" (select (eq_mask ids u) ts))
    by (apply lookup_bool_index, Hdf).
  by rewrite (getitem_bool_index _ _ "Concentration_mg_L"
                (select (eq_mask ids u) cs))
    by (apply lookup_bool_index, Hdf).
Qed.

Lemma bind_data_nonzero_spec u s :
  binds s "subject_data" (Frame (bool_index table (eq_mask ids u))) →
  bind_data_nonzero s =
  ((store "data_nonzero"
      (Frame (bool_index (bool_index table (eq_mask ids u))
                (gt_mask (select (eq_mask ids u) cs) 0))) s).1, Ok tt).
Proof.
  intros H. unfold bind_data_nonzero.
  rewrite (bind_ok _ _ _ _ _ (frame_of_binds _ _ _ H)).
  by rewrite (lift_ok _ _ _ _ (data_nonzero_loaded u)).
Qed.

Lemma semilogy_data_nonzero_spec u s :
  binds s "data_nonzero"
    (Frame (bool_index (bool_index table (eq_mask ids u))
              (gt_mask (select (eq_mask ids u) cs) 0))) →
  semilogy_data_nonzero s = ((emit (semilogy_call ids ts cs u) s).1, Ok tt).
Proof.
  intros H. unfold semilogy_data_nonzero.
  rewrite (bind_ok _ _ _ _ _ (frame_of_binds _ _ _ H)).
  by rewrite (lift_ok _ _ _ _ (xy_data_nonzero u)).
Qed.

Lemma bind_mean_data_spec s :
  binds s "df" (Frame table) →
  bind_mean_data s =
  ((store "mean_data" (Stats (groupby_agg ts cs)) s).1, Ok tt).
Proof.
  intros H. unfold bind_mean_data.
  rewrite (bind_ok _ _ _ _ _ (frame_of_binds _ _ _ H)).
  by rewrite (lift_ok _ _ _ _ (mean_data_loaded _ _ _ _ Hdf)).
Qed.
End Statements.

Lemma errorbar_of_spec x m s :
  binds s x (Stats m) → errorbar_of x s = ((emit (errorbar_call m) s).1, Ok tt).
Proof.
  intros H. unfold errorbar_of.
  by rewrite (bind_ok _ _ _ _ _ (stats_of_binds _ _ _ H)).
Qed.

Lemma bind_mean_nonzero_spec m s :
  binds s "mean_data" (Stats m) →
  bind_mean_nonzero s =
  ((store "mean_nonzero" (Stats (mean_nonzero m)) s).1, Ok tt).
Proof.
  intros H. unfold bind_mean_nonzero.
  by rewrite (bind_ok _ _ _ _ _ (stats_of_binds _ _ _ H)).
Qed.

Lemma emit_ok c s : emit c s = ((emit c s).1, Ok tt).
Proof. reflexivity. Qed.

Lemma emit_binds c s x o : binds s x o → binds (emit c s).1 x o.
Proof. done. Qed.

Lemma emit_preserved c s : preserved s (emit c s).1.
Proof. by intros x o _ _ H. Qed.

Lemma store_preserved x o s :
  x = "subject_data" ∨ x = "data_nonzero" → preserved s (store x o s).1.
Proof.
  intros Hx y o' Hy1 Hy2 H. apply store_keeps; [|done].
  destruct Hx; congruence.
Qed.

Lemma concat_singletons {A B} (f : A → B) (l : list A) :
  concat (map (λ a, [f a]) l) = map f l.
Proof. induction l as [|a l IH]; simpl; by rewrite ?IH. Qed.

Section Loops.
Context (table : DataFrame) (ids ts cs : Series).
Hypothesis Hdf : loaded table ids ts cs.

Lemma plot_body_spec u s :
  binds s "df" (Frame table) →
  ∃ s', (bind_subject_data u;; plot_subject_data) s = (s', Ok tt) ∧
        preserved s s' ∧
        calls s' = calls s ++ [plot_call ids ts cs u].
Proof.
  intros H. eexists.
  rewrite (bind_ok _ _ _ _ _ (bind_subject_data_spec _ _ (loaded_ids _ _ _ _ Hdf) u s H)).
  rewrite (plot_subject_data_spec _ _ _ _ Hdf u) by apply store_binds.
  split; [done|]. split; [|done].
  eapply preserved_trans; [|apply emit_preserved].
  apply store_preserved. by left.
Qed.

Lemma semilogy_body_spec u s :
  binds s "df" (Frame table) →
  ∃ s', (bind_subject_data u;; bind_data_nonzero;; semilogy_data_nonzero) s
        = (s', Ok tt) ∧
        preserved s s' ∧
        calls s' = calls s ++ [semilogy_call ids ts cs u].
Proof.
  intros H. eexists.
  rewrite (bind_ok _ _ _ _ _ (bind_subject_data_spec _ _ (loaded_ids _ _ _ _ Hdf) u s H)).
  rewrite (bind_ok _ _ _ _ _
             (bind_data_nonzero_spec _ _ _ _ Hdf u _ (store_binds _ _ _))).
  rewrite (semilogy_data_nonzero_spec _ _ _ _ Hdf u) by apply store_binds.
  split; [done|]. split; [|done].
  eapply preserved_trans; [|apply emit_preserved].
  eapply preserved_trans; apply store_preserved; auto.
Qed.

Lemma plot_subjects_spec subs s :
  binds s "df" (Frame table) →
  binds s "subjects" (Array subs) →
  ∃ s', plot_subjects s = (s', Ok tt) ∧ preserved s s' ∧
        calls s' = calls s ++ map (plot_call ids ts cs) subs.
Proof.
  intros Hd Hs. unfold plot_subjects.
  rewrite (bind_ok _ _ _ _ _ (array_of_binds _ _ _ Hs)).
  rewrite <- concat_singletons. apply for_each_spec.
  intros u s1 Hs1. apply plot_body_spec. by apply Hs1.
Qed.

Lemma semilogy_subjects_spec subs s :
  binds s "df" (Frame table) →
  binds s "subjects" (Array subs) →
  ∃ s', semilogy_subjects s = (s', Ok tt) ∧ preserved s s' ∧
        calls s' = calls s ++ map (semilogy_call ids ts cs) subs.
Proof.
  intros Hd Hs. unfold semilogy_subjects.
  rewrite (bind_ok _ _ _ _ _ (array_of_binds _ _ _ Hs)).
  rewrite <- concat_singletons. apply for_each_spec.
  intros u s1 Hs1. apply semilogy_body_spec. by apply Hs1.
Qed.
End Loops.

(** ** The whole run on a loaded table *)

Lemma read_csv_binds table : binds (read_csv table) "df" (Frame table).
Proof. exists 0%nat. split; [apply lookup_singleton_eq | done]. Qed.

Lemma run_loaded table ids ts cs :
  loaded table ids ts cs →
  ∃ s, run table = (s, Ok tt) ∧ calls s = expected_calls ids ts cs ∧
       binds s "df" (Frame table).
Proof.
  intros Hdf. unfold run, main.
  set (s0 := read_csv table).
  assert (H0 : binds s0 "df" (Frame table)) by apply read_csv_binds.
  rewrite (bind_ok _ _ _ _ _ (colors_spec _ _ (loaded_ids _ _ _ _ Hdf) s0 H0)).
  rewrite (bind_ok _ _ _ _ _ (bind_subjects_spec _ _ (loaded_ids _ _ _ _ Hdf) s0 H0)).
  set (s1 := (store "subjects" (Array (unique ids)) s0).1).
  assert (Hd1 : binds s1 "df" (Frame table)) by by apply store_keeps.
  assert (Hs1 : binds s1 "subjects" (Array (unique ids))) by apply store_binds.
  destruct (plot_subjects_spec _ _ _ _ Hdf _ s1 Hd1 Hs1) as (s2 & R2 & P2 & C2).
  rewrite (bind_ok _ _ _ _ _ R2), (bind_ok _ _ _ _ _ (emit_ok _ _)).
  set (s3 := (emit _ s2).1).
  assert (Hd3 : binds s3 "df" (Frame table)) by by apply P2.
  assert (Hs3 : binds s3 "subjects" (Array (unique ids))) by by apply P2.
  destruct (plot_subjects_spec _ _ _ _ Hdf _ s3 Hd3 Hs3) as (s4 & R4 & P4 & C4).
  rewrite (bind_ok _ _ _ _ _ R4), (bind_ok _ _ _ _ _ (emit_ok _ _)).
  set (s5 := (emit _ s4).1).
  assert (Hd5 : binds s5 "df" (Frame table)) by by apply P4.
  assert (Hs5 : binds s5 "subjects" (Array (unique ids))) by by apply P4.
  destruct (semilogy_subjects_spec _ _ _ _ Hdf _ s5 Hd5 Hs5)
    as (s6 & R6 & P6 & C6).
  rewrite (bind_ok _ _ _ _ _ R6), (bind_ok _ _ _ _ _ (emit_ok _ _)).
  set (s7 := (emit _ s6).1).
  assert (Hd7 : binds s7 "df" (Frame table)) by by apply P6.
  assert (Hs7 : binds s7 "subjects" (Array (unique ids))) by by apply P6.
  rewrite (bind_ok _ _ _ _ _ (bind_mean_data_spec _ _ _ _ Hdf s7 Hd7)).
  set (s8 := (store "mean_data" _ s7).1).
  assert (Hm8 : binds s8 "mean_data" (Stats (groupby_agg ts cs)))
    by apply store_binds.
  rewrite (bind_ok _ _ _ _ _ (errorbar_of_spec _ _ s8 Hm8)).
  rewrite (bind_ok _ _ _ _ _ (emit_ok _ _)).
  set (s9 := (emit _ (emit _ s8).1).1).
  assert (Hm9 : binds s9 "mean_data" (Stats (groupby_agg ts cs))) by done.
  rewrite (bind_ok _ _ _ _ _ (bind_mean_nonzero_spec _ s9 Hm9)).
  set (s10 := (store "mean_nonzero" _ s9).1).
  assert (Hn10 : binds s10 "mean_nonzero"
                   (Stats (mean_nonzero (groupby_agg ts cs))))
    by apply store_binds.
  rewrite (bind_ok _ _ _ _ _ (errorbar_of_spec _ _ s10 Hn10)).
  rewrite (bind_ok _ _ _ _ _ (emit_ok _ _)).
  set (s11 := (emit _ (emit _ s10).1).1).
  assert (Hd11 : binds s11 "df" (Frame table))
    by (do 2 apply emit_binds; apply store_keeps; [done|];
        do 2 apply emit_binds; by apply store_keeps).
  assert (Hs11 : binds s11 "subjects" (Array (unique ids)))
    by (do 2 apply emit_binds; apply store_keeps; [done|];
        do 2 apply emit_binds; by apply store_keeps).
  assert (Hm11 : binds s11 "mean_data" (Stats (groupby_agg ts cs)))
    by (do 2 apply emit_binds; by apply store_keeps).
  destruct (plot_subjects_spec _ _ _ _ Hdf _ s11 Hd11 Hs11)
    as (s12 & R12 & P12 & C12).
  rewrite (bind_ok _ _ _ _ _ R12).
  assert (Hm12 : binds s12 "mean_data" (Stats (groupby_agg ts cs)))
    by by apply P12.
  rewrite (bind_ok _ _ _ _ _ (errorbar_of_spec _ _ s12 Hm12)).
  eexists. split; [reflexivity|]. split.
  - simpl. rewrite C12. simpl. rewrite C6. simpl. rewrite C4. simpl.
    rewrite C2. simpl. unfold expected_calls.
    repeat (rewrite <- ?app_assoc; simpl). reflexivity.
  - do 2 apply emit_binds. by apply P12.
Qed.

(** ** A table without one of the required columns *)

Lemma getitem_missing (df : DataFrame) label :
  df !! label = None → getitem df label = Raise (KeyError label).
Proof. unfold getitem. by intros ->. Qed.

Lemma bool_index_missing (df : DataFrame) mask label :
  df !! label = None → bool_index df mask !! label = None.
Proof. intros H. unfold bool_index. by rewrite lookup_fmap, H. Qed.

(** The first of the two plotted columns that is absent is the one the
    [KeyError] names. *)
Lemma xy_missing (f : DataFrame) :
  f !! "Time_h" = None ∨ f !! "Concentration_mg_L" = None →
  ∃ c, xy f = Raise (KeyError c) ∧ c ∈ required_columns ∧ f !! c = None.
Proof.
  intros H. unfold xy, required_columns.
  destruct (f !! "Time_h") as [x|] eqn:Ht.
  - destruct H as [Hx | Hc]; [done|].
    exists "Concentration_mg_L".
    rewrite (getitem_Ok _ _ _ Ht), (getitem_missing _ _ Hc).
    split; [done|]. split; [rewrite !elem_of_cons; auto | done].
  - exists "Time_h". rewrite (getitem_missing _ _ Ht).
    split; [done|]. split; [rewrite !elem_of_cons; auto | done].
Qed.

Lemma mean_data_missing (f : DataFrame) :
  f !! "Time_h" = None ∨ f !! "Concentration_mg_L" = None →
  ∃ c, mean_data f = Raise (KeyError c) ∧ c ∈ required_columns ∧ f !! c = None.
Proof.
  intros H. unfold mean_data, required_columns.
  destruct (f !! "Time_h") as [x|] eqn:Ht.
  - destruct H as [Hx | Hc]; [done|].
    exists "Concentration_mg_L".
    rewrite (getitem_Ok _ _ _ Ht), (getitem_missing _ _ Hc).
    split; [done|]. split; [rewrite !elem_of_cons; auto | done].
  - exists "Time_h". rewrite (getitem_missing _ _ Ht).
    split; [done|]. split; [rewrite !elem_of_cons; auto | done].
Qed.

Lemma run_without_subject_id table :
  table !! "Subject_ID" = None →
  run table = (read_csv table, Raise (KeyError "Subject_ID")).
Proof.
  intros H. unfold run, main. apply bind_raise. unfold colors.
  rewrite (bind_ok _ _ _ _ _ (frame_of_binds _ _ _ (read_csv_binds table))).
  apply lift_raise. unfold subjects. by rewrite (getitem_missing _ _ H).
Qed.

(** With rows, the first iteration of the first loop selects the rows of
    the first subject and then fails to find the column to plot. *)
Lemma run_without_plotted_column table u ids :
  table !! "Subject_ID" = Some (u :: ids) →
  table !! "Time_h" = None ∨ table !! "Concentration_mg_L" = None →
  ∃ c s,
    run table = (s, Raise (KeyError c)) ∧
    c ∈ required_columns ∧ table !! c = None ∧
    binds s "subject_data" (Frame (bool_index table (eq_mask (u :: ids) u))) ∧
    calls s = [].
Proof.
  intros Hids Hmiss.
  set (m := eq_mask (u :: ids) u).
  destruct (xy_missing (bool_index table m)) as (c & Hxy & Hc & Hnone).
  { destruct Hmiss; [left | right]; by apply bool_index_missing. }
  assert (Hnone' : table !! c = None).
  { unfold bool_index in Hnone. rewrite lookup_fmap in Hnone.
    by destruct (table !! c). }
  exists c. eexists. split; [|split; [exact Hc|split; [exact Hnone'|]]].
  - unfold run, main.
    set (s0 := read_csv table).
    assert (H0 : binds s0 "df" (Frame table)) by apply read_csv_binds.
    rewrite (bind_ok _ _ _ _ _ (colors_spec _ _ Hids s0 H0)).
    rewrite (bind_ok _ _ _ _ _ (bind_subjects_spec _ _ Hids s0 H0)).
    set (s1 := (store "subjects" _ s0).1).
    assert (Hd1 : binds s1 "df" (Frame table)) by by apply store_keeps.
    assert (Hs1 : binds s1 "subjects" (Array (unique (u :: ids))))
      by apply store_binds.
    apply bind_raise. unfold plot_subjects.
    rewrite (bind_ok _ _ _ _ _ (array_of_binds _ _ _ Hs1)).
    replace (unique (u :: ids)) with (u :: unique_from [u] ids) by done.
    simpl for_each. apply bind_raise.
    rewrite (bind_ok _ _ _ _ _ (bind_subject_data_spec _ _ Hids u s1 Hd1)).
    unfold plot_subject_data.
    rewrite (bind_ok _ _ _ _ _ (frame_of_binds _ _ _ (store_binds _ _ s1))).
    by apply lift_raise.
  - split; [apply store_binds | done].
Qed.

(** Without rows the three loops do nothing and [groupby] is the first
    statement to look up a plotted column. *)
Lemma run_without_rows table :
  table !! "Subject_ID" = Some [] →
  table !! "Time_h" = None ∨ table !! "Concentration_mg_L" = None →
  ∃ c s,
    run table = (s, Raise (KeyError c)) ∧
    c ∈ required_columns ∧ table !! c = None.
Proof.
  intros Hids Hmiss.
  destruct (mean_data_missing table Hmiss) as (c & Hmd & Hc & Hnone).
  exists c. eexists. split; [|done].
  unfold run, main.
  set (s0 := read_csv table).
  assert (H0 : binds s0 "df" (Frame table)) by apply read_csv_binds.
  rewrite (bind_ok _ _ _ _ _ (colors_spec _ _ Hids s0 H0)).
  rewrite (bind_ok _ _ _ _ _ (bind_subjects_spec _ _ Hids s0 H0)).
  set (s1 := (store "subjects" _ s0).1).
  assert (Hloop : ∀ s, binds s "subjects" (Array []) →
                       plot_subjects s = (s, Ok tt)).
  { intros s Hs. unfold plot_subjects.
    by rewrite (bind_ok _ _ _ _ _ (array_of_binds _ _ _ Hs)). }
  assert (Hsemi : ∀ s, binds s "subjects" (Array []) →
                       semilogy_subjects s = (s, Ok tt)).
  { intros s Hs. unfold semilogy_subjects.
    by rewrite (bind_ok _ _ _ _ _ (array_of_binds _ _ _ Hs)). }
  assert (Hs1 : binds s1 "subjects" (Array [])) by apply store_binds.
  rewrite (bind_ok _ _ _ _ _ (Hloop s1 Hs1)).
  rewrite (bind_ok _ _ _ _ _ (emit_ok _ _)).
  rewrite (bind_ok _ _ _ _ _ (Hloop _ (emit_binds _ _ _ _ Hs1))).
  rewrite (bind_ok _ _ _ _ _ (emit_ok _ _)).
  rewrite (bind_ok _ _ _ _ _
             (Hsemi _ (emit_binds _ _ _ _ (emit_binds _ _ _ _ Hs1)))).
  rewrite (bind_ok _ _ _ _ _ (emit_ok _ _)).
  apply bind_raise. unfold bind_mean_data.
  assert (Hd : binds s1 "df" (Frame table)) by by apply store_keeps.
  rewrite (bind_ok _ _ _ _ _
             (frame_of_binds _ _ _
                (emit_binds _ _ _ _ (emit_binds _ _ _ _ (emit_binds _ _ _ _ Hd))))).
  by apply lift_raise.
Qed.

(** C3 (as the code behaves): [read_csv] checks no column; on a table that
    lacks a required column the run raises [KeyError] naming an absent
    required column.  When [Subject_ID] is absent this happens at line 37,
    before anything is derived; when the table has rows and a plotted
    column is absent, it happens at the first [ax.plot] of line 45, after
    the rows of the first subject were selected and before any call that
    draws data. *)
Theorem C3_missing_column_raises_KeyError table :
  table !! "Subject_ID" = None ∨ table !! "Time_h" = None ∨
    table !! "Concentration_mg_L" = None →
  ∃ c s,
    run table = (s, Raise (KeyError c)) ∧
    c ∈ required_columns ∧ table !! c = None ∧
    (table !! "Subject_ID" = None → c = "Subject_ID" ∧ s = read_csv table) ∧
    (∀ u ids, table !! "Subject_ID" = Some (u :: ids) →
       binds s "subject_data"
         (Frame (bool_index table (eq_mask (u :: ids) u))) ∧
       calls s = []).
Proof.
  intros Hmiss.
  destruct (table !! "Subject_ID") as [[|u ids]|] eqn:Hids.
  - destruct (run_without_rows table Hids) as (c & s & Hrun & Hc & Hnone).
    { destruct Hmiss as [? | [? | ?]]; [done | by left | by right]. }
    exists c, s. do 3 (split; [done|]). split; [done|].
    intros u ids [=].
  - destruct (run_without_plotted_column table u ids Hids)
      as (c & s & Hrun & Hc & Hnone & Hsd & Hcalls).
    { destruct Hmiss as [? | [? | ?]]; [done | by left | by right]. }
    exists c, s. do 3 (split; [done|]). split; [done|].
    intros u' ids' [= <- <-]. done.
  - exists "Subject_ID", (read_csv table).
    split; [by apply run_without_subject_id|].
    split; [unfold required_columns; rewrite !elem_of_cons; auto|].
    do 2 (split; [done|]). intros u ids [=].
Qed.

Lemma C3_witness :
  ∃ c s,
    run df_no_concentration = (s, Raise (KeyError c)) ∧
    c ∈ required_columns ∧ df_no_concentration !! c = None.
Proof.
  destruct (C3_missing_column_raises_KeyError df_no_concentration)
    as (c & s & Hrun & Hc & Hnone & _).
  - right; right; reflexivity.
  - exists c, s. split; [exact Hrun|]. split; [exact Hc | exact Hnone].
Defined.

(** C3, as stated, fails: on the sample table without its concentration
    column nothing fails when the table is read; the exception is a
    [KeyError] raised by line 45, when the rows of subject 1 have already
    been selected and bound to [subject_data]. *)
Lemma C3_counterexample :
  df_no_concentration !! "Concentration_mg_L" = None ∧
  ∃ s,
    run df_no_concentration = (s, Raise (KeyError "Concentration_mg_L")) ∧
    s ≠ read_csv df_no_concentration ∧
    binds s "subject_data"
      (Frame (<["Subject_ID" := [1; 1; 1]]> (<["Time_h" := [0; 1; 2]]> ∅))).
Proof.
  split; [reflexivity|].
  eexists. split; [vm_compute; reflexivity|]. split.
  - intros H. apply (f_equal (λ s, length (heap s))) in H.
    vm_compute in H. discriminate H.
  - exists 2%nat. split; vm_compute; reflexivity.
Qed.

(** ** The source table is never written *)

Section Untouched.
Context (table : DataFrame).

Lemma keeps_bind {A B} (m : M A) (k : A → M B) :
  keeps_table table m → (∀ a, keeps_table table (k a)) →
  keeps_table table (m ≫= k).
Proof.
  intros Hm Hk s Hs. unfold mbind, M_bind.
  specialize (Hm s Hs). destruct (m s) as [s' [a|e]]; simpl in *.
  - by apply Hk.
  - done.
Qed.

Lemma keeps_ret {A} (a : A) : keeps_table table (mret a).
Proof. by intros s Hs. Qed.

Lemma keeps_raise {A} (e : exn) : keeps_table table (@raise A e).
Proof. by intros s Hs. Qed.

Lemma keeps_lift {A} (r : result A) : keeps_table table (lift r).
Proof. by intros s Hs. Qed.

Lemma keeps_emit c : keeps_table table (emit c).
Proof. by intros s Hs. Qed.

Lemma keeps_name x : keeps_table table (name x).
Proof.
  intros s Hs. unfold name.
  destruct (globals s !! x) as [l|]; [|done].
  by destruct (heap s !! l).
Qed.

Lemma keeps_frame_of x : keeps_table table (frame_of x).
Proof.
  apply keeps_bind; [apply keeps_name|].
  intros [f|a|m]; (apply keeps_ret || apply keeps_raise).
Qed.

Lemma keeps_array_of x : keeps_table table (array_of x).
Proof.
  apply keeps_bind; [apply keeps_name|].
  intros [f|a|m]; (apply keeps_ret || apply keeps_raise).
Qed.

Lemma keeps_stats_of x : keeps_table table (stats_of x).
Proof.
  apply keeps_bind; [apply keeps_name|].
  intros [f|a|m]; (apply keeps_ret || apply keeps_raise).
Qed.

(** An assignment to another name allocates a fresh object: the table's
    object is not overwritten and gets no second name. *)
Lemma keeps_store x o : x ≠ "df" → keeps_table table (store x o).
Proof.
  intros Hx s (Hdf & Hheap & Hothers). split; [|split]; simpl.
  - by rewrite lookup_insert_ne.
  - by apply lookup_app_l_Some.
  - intros y l Hy. destruct (decide (x = y)) as [<- | Hxy].
    + rewrite lookup_insert_eq. intros [= <-].
      apply lookup_lt_Some in Hheap. lia.
    + rewrite lookup_insert_ne by done. by apply Hothers.
Qed.

Lemma keeps_for_each {A} (l : list A) (body : A → M unit) :
  (∀ a, keeps_table table (body a)) → keeps_table table (for_each l body).
Proof.
  intros Hbody. induction l as [|a l IH]; simpl.
  - apply keeps_ret.
  - apply keeps_bind; [apply Hbody | by intros _].
Qed.

Lemma keeps_bind_subject_data u : keeps_table table (bind_subject_data u).
Proof.
  apply keeps_bind; [apply keeps_frame_of | intros df].
  apply keeps_bind; [apply keeps_lift | intros sd].
  by apply keeps_store.
Qed.

Lemma keeps_plot_subject_data : keeps_table table plot_subject_data.
Proof.
  apply keeps_bind; [apply keeps_frame_of | intros sd].
  apply keeps_bind; [apply keeps_lift | intros c]. apply keeps_emit.
Qed.

Lemma keeps_bind_data_nonzero : keeps_table table bind_data_nonzero.
Proof.
  apply keeps_bind; [apply keeps_frame_of | intros sd].
  apply keeps_bind; [apply keeps_lift | intros nz].
  by apply keeps_store.
Qed.

Lemma keeps_semilogy_data_nonzero : keeps_table table semilogy_data_nonzero.
Proof.
  apply keeps_bind; [apply keeps_frame_of | intros nz].
  apply keeps_bind; [apply keeps_lift | intros c]. apply keeps_emit.
Qed.

Lemma keeps_plot_subjects : keeps_table table plot_subjects.
Proof.
  apply keeps_bind; [apply keeps_array_of | intros subs].
  apply keeps_for_each. intros u.
  apply keeps_bind; [apply keeps_bind_subject_data | intros _].
  apply keeps_plot_subject_data.
Qed.

Lemma keeps_semilogy_subjects : keeps_table table semilogy_subjects.
Proof.
  apply keeps_bind; [apply keeps_array_of | intros subs].
  apply keeps_for_each. intros u.
  apply keeps_bind; [apply keeps_bind_subject_data | intros _].
  apply keeps_bind; [apply keeps_bind_data_nonzero | intros _].
  apply keeps_semilogy_data_nonzero.
Qed.

Lemma keeps_colors : keeps_table table colors.
Proof.
  apply keeps_bind; [apply keeps_frame_of | intros df].
  apply keeps_bind; [apply keeps_lift | intros _]. apply keeps_ret.
Qed.

Lemma keeps_bind_subjects : keeps_table table bind_subjects.
Proof.
  apply keeps_bind; [apply keeps_frame_of | intros df].
  apply keeps_bind; [apply keeps_lift | intros u].
  by apply keeps_store.
Qed.

Lemma keeps_bind_mean_data : keeps_table table bind_mean_data.
Proof.
  apply keeps_bind; [apply keeps_frame_of | intros df].
  apply keeps_bind; [apply keeps_lift | intros md].
  by apply keeps_store.
Qed.

Lemma keeps_errorbar_of x : keeps_table table (errorbar_of x).
Proof.
  apply keeps_bind; [apply keeps_stats_of | intros md]. apply keeps_emit.
Qed.

Lemma keeps_bind_mean_nonzero : keeps_table table bind_mean_nonzero.
Proof.
  apply keeps_bind; [apply keeps_stats_of | intros md].
  by apply keeps_store.
Qed.

Lemma keeps_main : keeps_table table main.
Proof.
  unfold main.
  repeat (apply keeps_bind; [|intros _]);
    first [ apply keeps_colors | apply keeps_bind_subjects
          | apply keeps_plot_subjects | apply keeps_semilogy_subjects
          | apply keeps_bind_mean_data | apply keeps_bind_mean_nonzero
          | apply keeps_errorbar_of | apply keeps_emit ].
Qed.

Lemma read_csv_untouched : untouched table (read_csv table).
Proof.
  split; [apply lookup_singleton_eq|]. split; [done|].
  intros x l Hx. simpl. by rewrite lookup_singleton_ne.
Qed.
End Untouched.

(** C9: whatever the table, and whether the run ends normally or with an
    exception, in the state reached [df] is still bound to the object
    [read_csv] created, that object still holds the table as it was read,
    and no other name (none of the derived frames) refers to that object;
    the same holds after each single derivation statement. *)
Theorem C9_source_table_untouched table :
  untouched table (read_csv table) ∧
  untouched table (run table).1 ∧
  (∀ u, keeps_table table (bind_subject_data u)) ∧
  keeps_table table bind_data_nonzero ∧
  keeps_table table bind_mean_data ∧
  keeps_table table bind_mean_nonzero.
Proof.
  split; [apply read_csv_untouched|].
  split; [apply keeps_main, read_csv_untouched|].
  split; [apply keeps_bind_subject_data|].
  split; [apply keeps_bind_data_nonzero|].
  split; [apply keeps_bind_mean_data | apply keeps_bind_mean_nonzero].
Qed.

Example demo_run :
  (run df_demo).2 = Ok tt ∧
  calls (run df_demo).1 =
  [ plot [0; 1; 2] [0; 4; 3];
    plot [0; 1; 2; 4] [0; 6; 5; 1];
    savefig "individual_concentration_time.png";
    plot [0; 1; 2] [0; 4; 3];
    plot [0; 1; 2; 4] [0; 6; 5; 1];
    savefig "spaghetti_linear.png";
    semilogy [1; 2] [4; 3];
    semilogy [1; 2; 4] [6; 5; 1];
    savefig "spaghetti_semilog.png";
    errorbar [0; 1; 2; 4] [Some 0; Some 5; Some 4; Some 1]
             [Sqrt 0; Sqrt 2; Sqrt 2; NaN];
    savefig "mean_concentration_time.png";
    errorbar [1; 2; 4] [Some 5; Some 4; Some 1] [Sqrt 2; Sqrt 2; NaN];
    savefig "mean_concentration_time_semilog.png";
    plot [0; 1; 2] [0; 4; 3];
    plot [0; 1; 2; 4] [0; 6; 5; 1];
    errorbar [0; 1; 2; 4] [Some 0; Some 5; Some 4; Some 1]
             [Sqrt 0; Sqrt 2; Sqrt 2; NaN];
    savefig "combined_concentration_time.png" ].
Proof. split; vm_compute; reflexivity. Qed.

(** ** Deriving again *)



(** * Further properties of the script *)

(** ** The subjects (line 41) *)

Lemma unique_from_sublist seen s : sublist (unique_from seen s) s.
Proof.
  revert seen. induction s as [|a s IH]; intros seen; simpl; [constructor|].
  destruct (existsb (Qeq_bool a) seen).
  - by apply sublist_cons.
  - by apply sublist_skip.
Qed.

Lemma first_index_In x l : In x l → is_Some (first_index x l).
Proof.
  induction l as [|y l IH]; simpl; [done|].
  intros [-> | Hin].
  - rewrite Qeq_bool_refl. by eexists.
  - destruct (Qeq_bool y x); [by eexists|].
    destruct (IH Hin) as [n ->]. by eexists.
Qed.

(** Two values kept by [unique_from] appear in the column in the order in
    which they were kept. *)
Lemma unique_from_order seen s i j u v :
  (i < j)%nat →
  unique_from seen s !! i = Some u → unique_from seen s !! j = Some v →
  ∃ a b, first_index u s = Some a ∧ first_index v s = Some b ∧ (a < b)%nat.
Proof.
  revert seen i j. induction s as [|y s IH]; intros seen i j Hij; simpl;
    [done|].
  destruct (existsb (Qeq_bool y) seen) eqn:Hy.
  - intros Hu Hv.
    destruct (IH seen i j Hij Hu Hv) as (a & b & Ha & Hb & Hab).
    assert (Hfresh : ∀ w k, unique_from seen s !! k = Some w →
                            Qeq_bool y w = false).
    { intros w k Hw. destruct (Qeq_bool y w) eqn:Hyw; [|done].
      assert (Hin : In w (unique_from seen s))
        by (apply list_elem_of_In, list_elem_of_lookup; by exists k).
      apply unique_from_In in Hin as [_ Hnot].
      apply existsb_Qeq in Hy as (z & Hz & Hyz).
      apply Qeq_bool_iff in Hyw.
      assert (existsb (Qeq_bool w) seen = true); [|congruence].
      apply existsb_Qeq. exists z. split; [done|]. by rewrite <- Hyw. }
    rewrite (Hfresh u i Hu), (Hfresh v j Hv), Ha, Hb.
    exists (S a), (S b). repeat split; lia.
  - assert (Hfresh : ∀ w k, unique_from (y :: seen) s !! k = Some w →
                            Qeq_bool y w = false ∧ In w s).
    { intros w k Hw.
      assert (Hin : In w (unique_from (y :: seen) s))
        by (apply list_elem_of_In, list_elem_of_lookup; by exists k).
      apply unique_from_In in Hin as [Hin Hnot]. split; [|done].
      simpl in Hnot. apply orb_false_iff in Hnot as [Hnot _].
      by rewrite Qeq_bool_comm. }
    destruct j as [|j]; [lia|]. destruct i as [|i]; simpl.
    + intros [= <-] Hv. rewrite Qeq_bool_refl.
      destruct (Hfresh v j Hv) as [-> Hin].
      destruct (first_index_In v s Hin) as [b ->].
      exists 0%nat, (S b). repeat split; lia.
    + intros Hu Hv.
      destruct (IH (y :: seen) i j) as (a & b & Ha & Hb & Hab); [lia|done..|].
      destruct (Hfresh u i Hu) as [-> _]. destruct (Hfresh v j Hv) as [-> _].
      rewrite Ha, Hb. exists (S a), (S b). repeat split; lia.
Qed.

(** X1: on a table whose [Subject_ID] cells are numbers, [subjects] lists
    every subject of the table once, ordered by first appearance: of two
    listed subjects, the earlier one first occurs in the column before
    the later one does. *)
Theorem X1_subjects_first_appearance table ids :
  table !! "Subject_ID" = Some ids →
  ∃ subs,
    subjects table = Ok subs ∧
    distinct subs ∧
    sublist subs ids ∧
    head subs = head ids ∧
    (∀ x, x ∈ ids → ∃ u, u ∈ subs ∧ x == u) ∧
    (∀ i j u v, (i < j)%nat → subs !! i = Some u → subs !! j = Some v →
       ∃ a b, first_index u ids = Some a ∧ first_index v ids = Some b ∧
              (a < b)%nat).
Proof.
  intros Hids. exists (unique ids).
  split; [by apply subjects_ids|].
  split; [apply unique_from_distinct|].
  split; [apply unique_from_sublist|].
  split; [by destruct ids|].
  split.
  - intros x Hx%list_elem_of_In.
    destruct (unique_from_cover [] ids x Hx) as [? | (u & Hu & Hxu)]; [done|].
    exists u. split; [by apply list_elem_of_In | done].
  - intros i j u v. apply unique_from_order.
Qed.

Lemma X1_witness :
  ∃ subs,
    subjects df_demo = Ok subs ∧ distinct subs ∧
    sublist subs [1; 1; 1; 2; 2; 2; 2].
Proof.
  destruct (X1_subjects_first_appearance df_demo [1; 1; 1; 2; 2; 2; 2])
    as (subs & Hsubs & Hdist & Hsub & _).
  - reflexivity.
  - exists subs. split; [exact Hsubs|]. split; [exact Hdist | exact Hsub].
Defined.

(** ** Every drawn line has a point (lines 43-47) *)

Lemma rows_of_nonempty u ids rest :
  length rest = length ids → In u ids → rows_of u (combine ids rest) ≠ [].
Proof.
  unfold rows_of. revert rest.
  induction ids as [|i ids IH]; intros [|r rest] Hlen; simpl in *; try done.
  intros Hu. unfold subject_id at 1. simpl.
  destruct (Qeq_bool i u) eqn:Hi; [done|].
  destruct Hu as [-> | Hu].
  - by rewrite Qeq_bool_refl in Hi.
  - apply IH; [lia | done].
Qed.

(** X2: on a table whose three columns are present and hold numbers (no
    blank [Subject_ID] cell), the series drawn for every subject of
    [subjects] is not empty: the loop plots no line without points. *)
Theorem X2_subject_series_nonempty table ids ts cs u :
  loaded table ids ts cs →
  u ∈ unique ids →
  ∃ pts, subject_series table u = Ok pts ∧ pts ≠ [].
Proof.
  intros Hdf Hu%list_elem_of_In%unique_from_In.
  exists (map snd (rows_of u (observations ids ts cs))).
  split; [by apply subject_series_rows|].
  intros Hnil. apply map_eq_nil in Hnil. revert Hnil.
  apply rows_of_nonempty; [|by destruct Hu].
  destruct Hdf as [_ _ _ Ht Hc]. rewrite length_combine. lia.
Qed.

Lemma X2_witness :
  ∃ pts, subject_series df_demo 2 = Ok pts ∧ pts ≠ [].
Proof.
  apply (X2_subject_series_nonempty df_demo
           [1; 1; 1; 2; 2; 2; 2] [0; 1; 2; 0; 1; 2; 4] [0; 4; 3; 0; 6; 5; 1]).
  - split; reflexivity.
  - apply list_elem_of_In. simpl. tauto.
Defined.

(** ** Boolean indexing keeps the shape of a frame (lines 44 and 86) *)

Lemma select_length {A} (mask : list bool) (s : list A) :
  length (select mask s) = kept mask (length s).
Proof.
  revert s. induction mask as [|b mask IH]; intros [|x s]; simpl; try done.
  destruct b; simpl; by rewrite IH.
Qed.

Lemma kept_le mask n : (kept mask n ≤ n)%nat.
Proof.
  revert n. induction mask as [|b mask IH]; intros [|n]; simpl; try lia.
  specialize (IH n). destruct b; lia.
Qed.

Lemma kept_full mask : kept mask (length mask) = length (List.filter (λ b, b) mask).
Proof.
  induction mask as [|b mask IH]; simpl; [done|].
  destruct b; simpl; by rewrite IH.
Qed.

(** X3: for a frame whose columns all have [n] entries and a mask of the
    same length [n] (the only masks pandas accepts, and the only ones the
    script builds), [df[mask]] has the labels of [df] and all its columns
    have as many entries as the mask has set bits. *)
Theorem X3_bool_index_keeps_shape (df : DataFrame) mask n :
  rectangular df n →
  length mask = n →
  dom (bool_index df mask) = dom df ∧
  rectangular (bool_index df mask) (length (List.filter (λ b, b) mask)) ∧
  (length (List.filter (λ b, b) mask) ≤ n)%nat.
Proof.
  intros Hrect Hmask. split; [|split].
  - unfold bool_index. apply dom_fmap_L.
  - intros label s. unfold bool_index. rewrite lookup_fmap.
    destruct (df !! label) as [s0|] eqn:Hs0; simpl; [|done].
    intros [= <-].
    by rewrite select_length, (Hrect _ _ Hs0), <- Hmask, kept_full.
  - rewrite <- kept_full, Hmask. apply kept_le.
Qed.

Lemma X3_witness :
  dom (bool_index df_pair [true; false]) = dom df_pair ∧
  rectangular (bool_index df_pair [true; false]) 1 ∧
  (1 ≤ 2)%nat.
Proof.
  apply (X3_bool_index_keeps_shape df_pair [true; false] 2).
  - intros label s. unfold df_pair, frame.
    rewrite !lookup_insert. repeat case_decide; try done; by intros [= <-].
  - reflexivity.
Defined.

(** ** The whole run on a table with the three columns *)

Lemma without_stats_plot_calls ids ts cs subs :
  map without_stats (map (plot_call ids ts cs) subs) =
  map (plot_call ids ts cs) subs.
Proof. induction subs as [|u subs IH]; simpl; by rewrite ?IH. Qed.

Lemma without_stats_semilogy_calls ids ts cs subs :
  map without_stats (map (semilogy_call ids ts cs) subs) =
  map (semilogy_call ids ts cs) subs.
Proof. induction subs as [|u subs IH]; simpl; by rewrite ?IH. Qed.

(** X4: on a table whose three columns are present and hold numbers, the
    run raises nothing and draws, in this order: one line per subject
    (the subject's times against its concentrations, in table order) on
    each of the first two charts, one line per subject restricted to its
    positive concentrations on the semi-logarithmic chart, an error bar on
    each of the two mean charts, and the lines of all subjects again
    followed by an error bar on the combined chart; every chart is closed
    by its [savefig].  The statistics carried by the error bars are left
    out of this statement. *)
Theorem X4_run_calls table ids ts cs :
  loaded table ids ts cs →
  ∃ s,
    run table = (s, Ok tt) ∧
    map without_stats (calls s) =
    map (plot_call ids ts cs) (unique ids) ++
    [savefig "individual_concentration_time.png"] ++
    map (plot_call ids ts cs) (unique ids) ++
    [savefig "spaghetti_linear.png"] ++
    map (semilogy_call ids ts cs) (unique ids) ++
    [savefig "spaghetti_semilog.png";
     errorbar [] [] [];
     savefig "mean_concentration_time.png";
     errorbar [] [] [];
     savefig "mean_concentration_time_semilog.png"] ++
    map (plot_call ids ts cs) (unique ids) ++
    [errorbar [] [] [];
     savefig "combined_concentration_time.png"].
Proof.
  intros Hdf. destruct (run_loaded _ _ _ _ Hdf) as (s & Hrun & Hcalls & _).
  exists s. split; [done|]. rewrite Hcalls. unfold expected_calls.
  rewrite !map_app, !without_stats_plot_calls, without_stats_semilogy_calls.
  reflexivity.
Qed.

Lemma X4_witness :
  ∃ s,
    run df_demo = (s, Ok tt) ∧
    map without_stats (calls s) =
    [ plot [0; 1; 2] [0; 4; 3];
      plot [0; 1; 2; 4] [0; 6; 5; 1];
      savefig "individual_concentration_time.png";
      plot [0; 1; 2] [0; 4; 3];
      plot [0; 1; 2; 4] [0; 6; 5; 1];
      savefig "spaghetti_linear.png";
      semilogy [1; 2] [4; 3];
      semilogy [1; 2; 4] [6; 5; 1];
      savefig "spaghetti_semilog.png";
      errorbar [] [] [];
      savefig "mean_concentration_time.png";
      errorbar [] [] [];
      savefig "mean_concentration_time_semilog.png";
      plot [0; 1; 2] [0; 4; 3];
      plot [0; 1; 2; 4] [0; 6; 5; 1];
      errorbar [] [] [];
      savefig "combined_concentration_time.png" ].
Proof.
  apply (X4_run_calls df_demo
           [1; 1; 1; 2; 2; 2; 2] [0; 1; 2; 0; 1; 2; 4] [0; 4; 3; 0; 6; 5; 1]).
  split; reflexivity.
Defined.

Lemma saved_files_app cs1 cs2 :
  saved_files (cs1 ++ cs2) = saved_files cs1 ++ saved_files cs2.
Proof.
  induction cs1 as [|c cs1 IH]; simpl; [done|].
  destruct c; simpl; by rewrite IH.
Qed.

Lemma saved_files_plot_calls ids ts cs subs :
  saved_files (map (plot_call ids ts cs) subs) = [].
Proof. by induction subs. Qed.

Lemma saved_files_semilogy_calls ids ts cs subs :
  saved_files (map (semilogy_call ids ts cs) subs) = [].
Proof. by induction subs. Qed.

(** X5: a run on a table whose three columns are present and hold numbers
    writes exactly six image files, in this order. *)
Theorem X5_saved_files table ids ts cs :
  loaded table ids ts cs →
  saved_files (calls (run table).1) =
  [ "individual_concentration_time.png";
    "spaghetti_linear.png";
    "spaghetti_semilog.png";
    "mean_concentration_time.png";
    "mean_concentration_time_semilog.png";
    "combined_concentration_time.png" ].
Proof.
  intros Hdf. destruct (run_loaded _ _ _ _ Hdf) as (s & Hrun & Hcalls & _).
  rewrite Hrun. simpl. rewrite Hcalls. unfold expected_calls.
  rewrite !saved_files_app, !saved_files_plot_calls,
    saved_files_semilogy_calls.
  reflexivity.
Qed.

Lemma X5_witness :
  saved_files (calls (run df_demo).1) =
  [ "individual_concentration_time.png";
    "spaghetti_linear.png";
    "spaghetti_semilog.png";
    "mean_concentration_time.png";
    "mean_concentration_time_semilog.png";
    "combined_concentration_time.png" ].
Proof.
  apply (X5_saved_files df_demo
           [1; 1; 1; 2; 2; 2; 2] [0; 1; 2; 0; 1; 2; 4] [0; 4; 3; 0; 6; 5; 1]).
  split; reflexivity.
Defined.

Lemma select_length_eq {A B} (mask : list bool) (a : list A) (b : list B) :
  length a = length b → length (select mask a) = length (select mask b).
Proof. intros H. by rewrite !select_length, H. Qed.

(** X6: every call of a run on a table with the three columns gets
    columns of one length: the x and y of each line, and the x, y and
    error of each error bar. *)
Theorem X6_calls_well_shaped table ids ts cs :
  loaded table ids ts cs →
  Forall well_shaped (calls (run table).1).
Proof.
  intros Hdf. destruct (run_loaded _ _ _ _ Hdf) as (s & Hrun & Hcalls & _).
  rewrite Hrun. simpl. rewrite Hcalls.
  assert (Hlen : length ts = length cs) by (destruct Hdf; congruence).
  assert (Hplot : Forall well_shaped (map (plot_call ids ts cs) (unique ids))).
  { apply Forall_fmap, Forall_true. intros u. simpl.
    by apply select_length_eq. }
  assert (Hsemi : Forall well_shaped
                    (map (semilogy_call ids ts cs) (unique ids))).
  { apply Forall_fmap, Forall_true. intros u. simpl.
    by do 2 apply select_length_eq. }
  assert (Hbar : ∀ m, well_shaped (errorbar_call m)).
  { intros m. simpl. by rewrite !length_map. }
  unfold expected_calls.
  repeat (apply Forall_app; split); try done;
    repeat (apply Forall_cons; split); try done; apply Forall_nil.
Qed.

Lemma X6_witness : Forall well_shaped (calls (run df_demo).1).
Proof.
  apply (X6_calls_well_shaped df_demo
           [1; 1; 1; 2; 2; 2; 2] [0; 1; 2; 0; 1; 2; 4] [0; 4; 3; 0; 6; 5; 1]).
  split; reflexivity.
Defined.

(** X7: only the three columns matter: two tables that agree on them (and
    may differ in any other column) give runs with the same calls. *)
Theorem X7_other_columns_ignored table1 table2 ids ts cs :
  loaded table1 ids ts cs →
  loaded table2 ids ts cs →
  (run table1).2 = (run table2).2 ∧
  calls (run table1).1 = calls (run table2).1.
Proof.
  intros H1 H2.
  destruct (run_loaded _ _ _ _ H1) as (s1 & R1 & C1 & _).
  destruct (run_loaded _ _ _ _ H2) as (s2 & R2 & C2 & _).
  rewrite R1, R2. simpl. by rewrite C1, C2.
Qed.

Lemma X7_witness :
  (run df_demo).2 = (run df_demo_dose).2 ∧
  calls (run df_demo).1 = calls (run df_demo_dose).1.
Proof.
  apply (X7_other_columns_ignored df_demo df_demo_dose
           [1; 1; 1; 2; 2; 2; 2] [0; 1; 2; 0; 1; 2; 4] [0; 4; 3; 0; 6; 5; 1]).
  - split; reflexivity.
  - split; reflexivity.
Defined.

(** X8: on a table that has the three columns but no rows the run raises
    nothing: no line is drawn, the three error bars are empty, and the
    six files are still written. *)
Theorem X8_run_without_rows table :
  loaded table [] [] [] →
  (run table).2 = Ok tt ∧
  calls (run table).1 =
  [ savefig "individual_concentration_time.png";
    savefig "spaghetti_linear.png";
    savefig "spaghetti_semilog.png";
    errorbar [] [] [];
    savefig "mean_concentration_time.png";
    errorbar [] [] [];
    savefig "mean_concentration_time_semilog.png";
    errorbar [] [] [];
    savefig "combined_concentration_time.png" ].
Proof.
  intros Hdf. destruct (run_loaded _ _ _ _ Hdf) as (s & Hrun & Hcalls & _).
  rewrite Hrun. simpl. by rewrite Hcalls.
Qed.

Lemma X8_witness :
  (run df_empty).2 = Ok tt ∧
  calls (run df_empty).1 =
  [ savefig "individual_concentration_time.png";
    savefig "spaghetti_linear.png";
    savefig "spaghetti_semilog.png";
    errorbar [] [] [];
    savefig "mean_concentration_time.png";
    errorbar [] [] [];
    savefig "mean_concentration_time_semilog.png";
    errorbar [] [] [];
    savefig "combined_concentration_time.png" ].
Proof.
  apply (X8_run_without_rows df_empty).
  split; reflexivity.
Defined.

(** ** Which column a failing run names, and what it has written by then *)

Lemma xy_without_time (f : DataFrame) :
  f !! "Time_h" = None → xy f = Raise (KeyError "Time_h").
Proof. intros H. unfold xy. by rewrite (getitem_missing _ _ H). Qed.

Lemma xy_without_concentration (f : DataFrame) x :
  f !! "Time_h" = Some x → f !! "Concentration_mg_L" = None →
  xy f = Raise (KeyError "Concentration_mg_L").
Proof.
  intros Ht Hc. unfold xy.
  by rewrite (getitem_Ok _ _ _ Ht), (getitem_missing _ _ Hc).
Qed.

Lemma mean_data_without_time (f : DataFrame) :
  f !! "Time_h" = None → mean_data f = Raise (KeyError "Time_h").
Proof. intros H. unfold mean_data. by rewrite (getitem_missing _ _ H). Qed.

Lemma mean_data_without_concentration (f : DataFrame) x :
  f !! "Time_h" = Some x → f !! "Concentration_mg_L" = None →
  mean_data f = Raise (KeyError "Concentration_mg_L").
Proof.
  intros Ht Hc. unfold mean_data.
  by rewrite (getitem_Ok _ _ _ Ht), (getitem_missing _ _ Hc).
Qed.

(** The first [ax.plot] raises what its column lookups raise. *)
Lemma run_first_plot_raises table u ids e :
  table !! "Subject_ID" = Some (u :: ids) →
  xy (bool_index table (eq_mask (u :: ids) u)) = Raise e →
  ∃ s, run table = (s, Raise e) ∧ calls s = [].
Proof.
  intros Hids Hxy. eexists. split; [|shelve].
  unfold run, main.
  set (s0 := read_csv table).
  assert (H0 : binds s0 "df" (Frame table)) by apply read_csv_binds.
  rewrite (bind_ok _ _ _ _ _ (colors_spec _ _ Hids s0 H0)).
  rewrite (bind_ok _ _ _ _ _ (bind_subjects_spec _ _ Hids s0 H0)).
  set (s1 := (store "subjects" _ s0).1).
  assert (Hd1 : binds s1 "df" (Frame table)) by by apply store_keeps.
  assert (Hs1 : binds s1 "subjects" (Array (unique (u :: ids))))
    by apply store_binds.
  apply bind_raise. unfold plot_subjects.
  rewrite (bind_ok _ _ _ _ _ (array_of_binds _ _ _ Hs1)).
  replace (unique (u :: ids)) with (u :: unique_from [u] ids) by done.
  simpl for_each. apply bind_raise.
  rewrite (bind_ok _ _ _ _ _ (bind_subject_data_spec _ _ Hids u s1 Hd1)).
  unfold plot_subject_data.
  rewrite (bind_ok _ _ _ _ _ (frame_of_binds _ _ _ (store_binds _ _ s1))).
  by apply lift_raise.
Unshelve. reflexivity.
Qed.

(** Without rows, [groupby] raises after three charts were saved. *)
Lemma run_groupby_raises table e :
  table !! "Subject_ID" = Some [] →
  mean_data table = Raise e →
  ∃ s, run table = (s, Raise e) ∧
       calls s = [ savefig "individual_concentration_time.png";
                   savefig "spaghetti_linear.png";
                   savefig "spaghetti_semilog.png" ].
Proof.
  intros Hids Hmd. eexists. split; [|shelve].
  unfold run, main.
  set (s0 := read_csv table).
  assert (H0 : binds s0 "df" (Frame table)) by apply read_csv_binds.
  rewrite (bind_ok _ _ _ _ _ (colors_spec _ _ Hids s0 H0)).
  rewrite (bind_ok _ _ _ _ _ (bind_subjects_spec _ _ Hids s0 H0)).
  set (s1 := (store "subjects" _ s0).1).
  assert (Hloop : ∀ s, binds s "subjects" (Array []) →
                       plot_subjects s = (s, Ok tt)).
  { intros s Hs. unfold plot_subjects.
    by rewrite (bind_ok _ _ _ _ _ (array_of_binds _ _ _ Hs)). }
  assert (Hsemi : ∀ s, binds s "subjects" (Array []) →
                       semilogy_subjects s = (s, Ok tt)).
  { intros s Hs. unfold semilogy_subjects.
    by rewrite (bind_ok _ _ _ _ _ (array_of_binds _ _ _ Hs)). }
  assert (Hs1 : binds s1 "subjects" (Array [])) by apply store_binds.
  rewrite (bind_ok _ _ _ _ _ (Hloop s1 Hs1)).
  rewrite (bind_ok _ _ _ _ _ (emit_ok _ _)).
  rewrite (bind_ok _ _ _ _ _ (Hloop _ (emit_binds _ _ _ _ Hs1))).
  rewrite (bind_ok _ _ _ _ _ (emit_ok _ _)).
  rewrite (bind_ok _ _ _ _ _
             (Hsemi _ (emit_binds _ _ _ _ (emit_binds _ _ _ _ Hs1)))).
  rewrite (bind_ok _ _ _ _ _ (emit_ok _ _)).
  apply bind_raise. unfold bind_mean_data.
  assert (Hd : binds s1 "df" (Frame table)) by by apply store_keeps.
  rewrite (bind_ok _ _ _ _ _
             (frame_of_binds _ _ _
                (emit_binds _ _ _ _ (emit_binds _ _ _ _ (emit_binds _ _ _ _ Hd))))).
  by apply lift_raise.
Unshelve. reflexivity.
Qed.

(** X9: when several required columns are absent the [KeyError] names the
    first absent one in the order Subject_ID, Time_h, Concentration_mg_L. *)
Theorem X9_first_absent_column_named table :
  (table !! "Subject_ID" = None →
   (run table).2 = Raise (KeyError "Subject_ID")) ∧
  (is_Some (table !! "Subject_ID") → table !! "Time_h" = None →
   (run table).2 = Raise (KeyError "Time_h")) ∧
  (is_Some (table !! "Subject_ID") → is_Some (table !! "Time_h") →
   table !! "Concentration_mg_L" = None →
   (run table).2 = Raise (KeyError "Concentration_mg_L")).
Proof.
  split; [|split].
  - intros H. by rewrite (run_without_subject_id _ H).
  - intros [[|u ids] Hids] Ht.
    + destruct (run_groupby_raises table _ Hids (mean_data_without_time _ Ht))
        as (s & -> & _). done.
    + destruct (run_first_plot_raises table u ids _ Hids
                  (xy_without_time _ (bool_index_missing _ _ _ Ht)))
        as (s & -> & _). done.
  - intros [[|u ids] Hids] [x Ht] Hc.
    + destruct (run_groupby_raises table _ Hids
                  (mean_data_without_concentration _ _ Ht Hc)) as (s & -> & _).
      done.
    + destruct (run_first_plot_raises table u ids _ Hids
                  (xy_without_concentration _ _
                     (lookup_bool_index _ _ _ _ Ht)
                     (bool_index_missing _ _ _ Hc))) as (s & -> & _).
      done.
Qed.

Lemma X9_witness : (run df_no_time).2 = Raise (KeyError "Time_h").
Proof.
  apply (proj1 (proj2 (X9_first_absent_column_named df_no_time))).
  - exists [1; 1; 1; 2; 2; 2; 2]. reflexivity.
  - reflexivity.
Defined.

(** X10: a run that fails for an absent column has drawn no data.  It has
    written no file either, unless the [Subject_ID] column is present and
    empty: then the three charts of the (empty) subject loops have been
    saved before [groupby] raises. *)
Theorem X10_failed_run_output table :
  table !! "Subject_ID" = None ∨ table !! "Time_h" = None ∨
    table !! "Concentration_mg_L" = None →
  (table !! "Subject_ID" ≠ Some [] → calls (run table).1 = []) ∧
  (table !! "Subject_ID" = Some [] →
   calls (run table).1 =
   [ savefig "individual_concentration_time.png";
     savefig "spaghetti_linear.png";
     savefig "spaghetti_semilog.png" ]).
Proof.
  intros Hmiss.
  destruct (table !! "Subject_ID") as [[|u ids]|] eqn:Hids.
  - split; [done|]. intros _.
    destruct (mean_data_missing table) as (c & Hmd & _).
    { destruct Hmiss as [? | [? | ?]]; [done | by left | by right]. }
    destruct (run_groupby_raises table _ Hids Hmd) as (s & Hrun & Hcalls).
    by rewrite Hrun.
  - split; [|done]. intros _.
    destruct (xy_missing (bool_index table (eq_mask (u :: ids) u)))
      as (c & Hxy & _).
    { destruct Hmiss as [? | [? | ?]]; [done | left | right];
        by apply bool_index_missing. }
    destruct (run_first_plot_raises table u ids _ Hids Hxy)
      as (s & Hrun & Hcalls).
    by rewrite Hrun.
  - split; [|done]. intros _. by rewrite (run_without_subject_id _ Hids).
Qed.

Lemma X10_witness : calls (run df_no_concentration).1 = [].
Proof.
  apply (X10_failed_run_output df_no_concentration).
  - right; right; reflexivity.
  - discriminate.
Defined.

(** ** The rows kept for the semi-logarithmic mean chart (line 125) *)

Lemma sorted_filter_map {A} (R : Q → Q → Prop) (f : A → Q) (p : A → bool) l :
  StronglySorted R (map f l) → StronglySorted R (map f (List.filter p l)).
Proof.
  induction l as [|a l IH]; simpl; [done|].
  intros [Hl Ha]%StronglySorted_inv.
  destruct (p a); simpl; [|by apply IH].
  constructor; [by apply IH|].
  rewrite List.Forall_forall in Ha. apply List.Forall_forall.
  intros x (r & <- & [Hr _]%filter_In)%in_map_iff.
  apply Ha, in_map_iff. by exists r.
Qed.

(** X11: [mean_nonzero] keeps exactly the rows of [mean_data] whose mean is
    strictly positive, whatever their time, in the same order; it is still
    ascending by time. *)
Theorem X11_mean_nonzero_rows table ids ts cs :
  loaded table ids ts cs →
  ∃ m,
    mean_data table = Ok m ∧
    sublist (mean_nonzero m) m ∧
    StronglySorted Qlt (map Time_h (mean_nonzero m)) ∧
    ∀ r, r ∈ mean_nonzero m ↔ r ∈ m ∧ ∃ v, agg_mean r = Some v ∧ 0 < v.
Proof.
  intros Hdf. exists (groupby_agg ts cs).
  split; [by apply (mean_data_loaded table ids)|].
  split; [apply filter_sublist|].
  split.
  - apply sorted_filter_map. rewrite groupby_agg_times.
    apply group_keys_sorted.
  - intros r. unfold mean_nonzero.
    rewrite !list_elem_of_In, filter_In. unfold mean_positive.
    split.
    + intros [Hr Hpos]. split; [done|].
      destruct (agg_mean r) as [v|]; [|done].
      exists v. split; [done | by apply Qgt_bool_iff].
    + intros [Hr (v & -> & Hv)]. split; [done | by apply Qgt_bool_iff].
Qed.

Lemma X11_witness :
  ∃ m,
    mean_data df_demo = Ok m ∧
    sublist (mean_nonzero m) m ∧
    StronglySorted Qlt (map Time_h (mean_nonzero m)).
Proof.
  destruct (X11_mean_nonzero_rows df_demo
              [1; 1; 1; 2; 2; 2; 2] [0; 1; 2; 0; 1; 2; 4] [0; 4; 3; 0; 6; 5; 1])
    as (m & Hm & Hsub & Hsorted & _).
  - split; reflexivity.
  - exists m. split; [exact Hm|]. split; [exact Hsub | exact Hsorted].
Defined.

(** ** Times at which nothing was measured above zero (line 125) *)

Lemma Qsum_all_zero l : (∀ x, In x l → x == 0) → Qsum l == 0.
Proof.
  induction l as [|a l IH]; simpl; intros H; [reflexivity|].
  rewrite (H a) by auto. rewrite IH by auto. Lqa.lra.
Qed.

(** X12: on a table whose three columns hold numbers, a row of
    [mean_data] at whose time every recorded concentration is 0 (as at a
    pre-dose time) is not kept by line 125, so it is not drawn on the
    semi-logarithmic mean chart. *)
Theorem X12_all_zero_rows_dropped table ids ts cs :
  loaded table ids ts cs →
  ∃ m,
    mean_data table = Ok m ∧
    ∀ r, r ∈ m →
      (∀ c, c ∈ at_time ts cs (Time_h r) → c == 0) →
      r ∉ mean_nonzero m.
Proof.
  intros Hdf. exists (groupby_agg ts cs).
  split; [by apply (mean_data_loaded table ids)|].
  assert (Hlen : length cs = length ts) by (destruct Hdf; congruence).
  intros r Hr Hzero.
  apply list_elem_of_In, groupby_agg_rows in Hr.
  destruct Hr as (k & Hk & ->). simpl in Hzero.
  unfold mean_nonzero. rewrite list_elem_of_In, filter_In.
  unfold mean_positive. simpl. intros [_ Hgt].
  destruct (at_time ts cs k) as [|x g] eqn:Eg; [done|].
  simpl in Hgt. apply Qgt_bool_iff in Hgt. rewrite Qred_correct in Hgt.
  assert (Hsum : Qsum (x :: g) == 0).
  { apply Qsum_all_zero. intros y Hy. apply Hzero. by apply list_elem_of_In. }
  simpl in Hsum. rewrite Hsum in Hgt.
  unfold Qdiv in Hgt. rewrite Qmult_0_l in Hgt.
  by apply Qlt_irrefl in Hgt.
Qed.

Lemma X12_witness :
  ∃ m,
    mean_data df_demo = Ok m ∧
    ∀ r, r ∈ m →
      (∀ c, c ∈ at_time [0; 1; 2; 0; 1; 2; 4] [0; 4; 3; 0; 6; 5; 1] (Time_h r) →
            c == 0) →
      r ∉ mean_nonzero m.
Proof.
  apply (X12_all_zero_rows_dropped df_demo [1; 1; 1; 2; 2; 2; 2]).
  split; reflexivity.
Defined.

(** ** The groups of [groupby] (line 102) *)





(** ** The outcome of a run *)

Lemma run_outcome table n :
  rectangular table n →
  (∃ ids ts cs, loaded table ids ts cs ∧ (run table).2 = Ok tt) ∨
  (∃ c, (run table).2 = Raise (KeyError c) ∧
        c ∈ required_columns ∧ table !! c = None).
Proof.
  intros Hrect.
  destruct (table !! "Subject_ID") as [ids|] eqn:Hids.
  - destruct (table !! "Time_h") as [ts|] eqn:Hts.
    + destruct (table !! "Concentration_mg_L") as [cs|] eqn:Hcs.
      * left. exists ids, ts, cs.
        assert (Hdf : loaded table ids ts cs).
        { split; try done.
          - by rewrite (Hrect _ _ Hts), (Hrect _ _ Hids).
          - by rewrite (Hrect _ _ Hcs), (Hrect _ _ Hids). }
        split; [done|].
        by destruct (run_loaded _ _ _ _ Hdf) as (s & -> & _).
      * right. destruct ids as [|u ids].
        -- destruct (run_without_rows table Hids (or_intror Hcs))
             as (c & s & -> & Hc & Hnone). by exists c.
        -- destruct (run_without_plotted_column table u ids Hids
                       (or_intror Hcs))
             as (c & s & -> & Hc & Hnone & _). by exists c.
    + right. destruct ids as [|u ids].
      * destruct (run_without_rows table Hids (or_introl Hts))
          as (c & s & -> & Hc & Hnone). by exists c.
      * destruct (run_without_plotted_column table u ids Hids
                    (or_introl Hts))
          as (c & s & -> & Hc & Hnone & _). by exists c.
  - right. exists "Subject_ID". rewrite (run_without_subject_id _ Hids).
    split; [done|]. split; [|done].
    unfold required_columns. rewrite !elem_of_cons. auto.
Qed.

(** X15: for a table whose columns hold numbers and have one length, a
    run ends normally exactly when the table has the three columns; the
    only exception such a run can raise is the [KeyError] of an absent
    required column (no name of the script is read before it is bound,
    and no object is used as another kind of object). *)
Theorem X15_run_outcome table n :
  rectangular table n →
  ((run table).2 = Ok tt ↔
   ∀ c, c ∈ required_columns → is_Some (table !! c)) ∧
  (∀ e, (run table).2 = Raise e →
     ∃ c, e = KeyError c ∧ c ∈ required_columns ∧ table !! c = None).
Proof.
  intros Hrect.
  destruct (run_outcome table n Hrect)
    as [(ids & ts & cs & Hdf & Hok) | (c & Hraise & Hc & Hnone)].
  - split.
    + split; [|done]. intros _ c. unfold required_columns.
      rewrite !elem_of_cons, elem_of_nil.
      destruct Hdf as [Hi Ht Hcs _ _].
      intros [-> | [-> | [-> | []]]]; eauto.
    + intros e He. rewrite Hok in He. discriminate He.
  - split.
    + split.
      * intros Hok. rewrite Hraise in Hok. discriminate Hok.
      * intros Hall. destruct (Hall c Hc) as [x Hx]. congruence.
    + intros e He. rewrite Hraise in He. injection He as <-. by exists c.
Qed.

Lemma X15_witness :
  (run df_pair).2 = Ok tt ↔
  ∀ c, c ∈ required_columns → is_Some (df_pair !! c).
Proof.
  apply (X15_run_outcome df_pair 2).
  intros label s. unfold df_pair, frame.
  rewrite !lookup_insert. repeat case_decide; try done; by intros [= <-].
Defined.

(** ** The rows of the aggregate (line 102) *)

(** X16: on a table whose three columns hold numbers (no blank [Time_h]
    cell), [mean_data] has exactly one row for every distinct time of the
    table and no other row, the rows are strictly ascending by time, and
    at least one observation of the table stands behind every row. *)
Theorem X16_aggregate_one_row_per_time table ids ts cs :
  loaded table ids ts cs →
  ∃ rows,
    mean_data table = Ok rows ∧
    StronglySorted Qlt (map Time_h rows) ∧
    (∀ t, t ∈ ts → ∃ r, r ∈ rows ∧ Time_h r == t) ∧
    (∀ r, r ∈ rows → Time_h r ∈ ts) ∧
    (∀ r1 r2, r1 ∈ rows → r2 ∈ rows → Time_h r1 == Time_h r2 → r1 = r2) ∧
    (∀ r, r ∈ rows → at_time ts cs (Time_h r) ≠ []).
Proof.
  intros Hdf. exists (groupby_agg ts cs).
  assert (Hlen : length cs = length ts) by (destruct Hdf; congruence).
  split; [by apply (mean_data_loaded table ids)|].
  split; [rewrite groupby_agg_times; apply group_keys_sorted|].
  split; [|split; [|split]].
  - intros t Ht%list_elem_of_In.
    destruct (group_keys_cover ts t Ht) as (k & Hk & Hkt).
    exists {| Time_h := k; agg_mean := mean (at_time ts cs k);
              agg_std := std (at_time ts cs k) |}.
    split; [|exact Hkt].
    apply list_elem_of_In, groupby_agg_rows. by exists k.
  - intros r (k & Hk & ->)%list_elem_of_In%groupby_agg_rows. simpl.
    by apply list_elem_of_In, group_keys_In.
  - intros r1 r2 (k1 & Hk1 & ->)%list_elem_of_In%groupby_agg_rows
                 (k2 & Hk2 & ->)%list_elem_of_In%groupby_agg_rows. simpl.
    intros Heq.
    assert (k1 = k2) as ->; [|done].
    apply (distinct_In_eq (group_keys ts)); try done.
    apply sorted_distinct, group_keys_sorted.
  - intros r (k & Hk & ->)%list_elem_of_In%groupby_agg_rows. simpl.
    apply at_time_nonempty; [done | by apply group_keys_In].
Qed.

Lemma X16_witness :
  ∃ rows,
    mean_data df_demo = Ok rows ∧
    map Time_h rows = [0; 1; 2; 4] ∧
    StronglySorted Qlt (map Time_h rows).
Proof.
  destruct (X16_aggregate_one_row_per_time df_demo
              [1; 1; 1; 2; 2; 2; 2] [0; 1; 2; 0; 1; 2; 4] [0; 4; 3; 0; 6; 5; 1])
    as (rows & Hrows & Hsorted & _).
  - split; reflexivity.
  - exists rows. split; [exact Hrows|]. split; [|exact Hsorted].
    injection Hrows as <-. reflexivity.
Defined.
